(** * Integrity pipeline of the IoT / blockchain backend

    A shallow embedding of the Python backend (FastAPI routes, signature
    verifier, IPFS client wrapper and web3 anchoring service) together with
    the properties its design document states about it.

    Layout. Sections 1 to 7 are definitions: Python values and their [repr],
    the canonical encoding [str(sorted(data.items())).encode()] (1), the
    decoders and predicates used to reason about it (2), exceptions, the two
    module-level dictionaries and a small state/trace/exception monad (3),
    the imported packages as an interface (4), the services and the route
    handlers, written after the source (5), the vocabulary of the statements
    (6) and a small concrete world for examples (7). Sections 8 to 10 are
    the lemmas and theorems.

    Not modelled: logging, and the scheduling of concurrent requests (every
    handler runs from start to end on the state it is given). *)

From Stdlib Require Import ZArith NArith Ascii String DecimalString DecimalZ.
From Stdlib.Strings Require Import Byte.
From stdpp Require Import base option list strings gmap sorting.

Set Warnings "-register-all".
Local Open Scope Z_scope.

(* ================================================================== *)
(** * 1. Python values *)
(* ================================================================== *)

(** A Python [str] is modelled by a Rocq [string]; every character stands for
    the code point of the same number, so the strings covered are those of
    the Latin-1 range (U+0000 .. U+00FF). *)

(** The textual form of a [float] is produced by the interpreter
    ([float.__repr__]), it is not part of this code base: it is an interface. *)
Class FloatRepr := {
  pyfloat : Type;
  float_repr : pyfloat → string;
}.

(** The values a JSON body decodes to ([Dict[str, Any]] in [IoTData]).
    A [dict] keeps its items in insertion order; its keys are pairwise
    distinct. *)
Inductive pyval `{FloatRepr} : Type :=
  | PyNone
  | PyBool (b : bool)
  | PyInt (z : Z)
  | PyFloat (f : pyfloat)
  | PyStr (s : string)
  | PyList (l : list pyval)
  | PyDict (d : list (string * pyval)).

(** [data.items()] of a [dict]: the (key, value) pairs in insertion order. *)
Abbreviation pydict := (list (string * pyval)).

(** ** [repr] of a [str] (CPython's [unicode_repr]) *)

Definition hexdigit (n : N) : ascii :=
  match String.get (N.to_nat n) "0123456789abcdef" with
  | Some c => c
  | None => "0"%char
  end.

(** [\xhh] *)
Definition hex_escape (ch : ascii) : string :=
  let n := N_of_ascii ch in
  String "\" (String "x" (String (hexdigit (n / 16)) (String (hexdigit (n mod 16)) ""))).

(** [Py_UNICODE_ISPRINTABLE] on the Latin-1 range: the controls, U+007F to
    U+00A0 and the soft hyphen U+00AD are not printable. *)
Definition isprintable (ch : ascii) : bool :=
  let n := N_of_ascii ch in
  ((32 <=? n) && (n <=? 126) || (161 <=? n) && (n <=? 172) || (174 <=? n))%N.

Definition escape_char (quote ch : ascii) : string :=
  let n := N_of_ascii ch in
  if (ch =? quote)%char || (ch =? "\")%char then String "\" (String ch "")
  else if (n =? 9)%N then "\t"
  else if (n =? 10)%N then "\n"
  else if (n =? 13)%N then "\r"
  else if (n <? 32)%N || (n =? 127)%N then hex_escape ch
  else if (n <? 127)%N then String ch ""
  else if negb (isprintable ch) then hex_escape ch
  else String ch "".

Fixpoint escape_string (quote : ascii) (s : string) : string :=
  match s with
  | "" => ""
  | String ch s' => escape_char quote ch +:+ escape_string quote s'
  end.

Fixpoint contains (ch : ascii) (s : string) : bool :=
  match s with
  | "" => false
  | String c s' => (c =? ch)%char || contains ch s'
  end.

(** Single quotes, unless the string has a single quote and no double quote. *)
Definition squote : ascii := ascii_of_N 39.
Definition dquote : ascii := ascii_of_N 34.

Definition choose_quote (s : string) : ascii :=
  if contains squote s && negb (contains dquote s) then dquote else squote.

Definition str_repr (s : string) : string :=
  let quote := choose_quote s in
  String quote (escape_string quote s +:+ String quote "").

(** ** [repr] of an [int] *)
Definition int_repr (z : Z) : string := NilZero.string_of_int (Z.to_int z).

(** ** [repr] of containers: the items separated by [", "] *)
Definition join_repr {A} (f : A → string) : list A → string :=
  fix go l :=
    match l with
    | [] => ""
    | x :: l' => f x +:+ match l' with [] => "" | _ => ", " +:+ go l' end
    end.

Fixpoint repr `{FloatRepr} (v : pyval) : string :=
  match v with
  | PyNone => "None"
  | PyBool true => "True"
  | PyBool false => "False"
  | PyInt z => int_repr z
  | PyFloat f => float_repr f
  | PyStr s => str_repr s
  | PyList l => "[" +:+ join_repr repr l +:+ "]"
  | PyDict d =>
      "{" +:+ join_repr (λ kv, str_repr kv.1 +:+ ": " +:+ repr kv.2) d +:+ "}"
  end.

(** [repr] of a 2-tuple [(key, value)]. *)
Definition tuple_repr `{FloatRepr} (kv : string * pyval) : string :=
  "(" +:+ str_repr kv.1 +:+ ", " +:+ repr kv.2 +:+ ")".

(** ** [sorted(data.items())]

    Tuples are compared component by component; the keys of a [dict] are
    pairwise distinct, so the comparison of two items is always settled by
    their keys ([str] comparison: code point by code point), and the values
    are never compared. The sort is a stable merge sort. *)
Definition item_le `{FloatRepr} (x y : string * pyval) : Prop :=
  String.le x.1 y.1.

Global Instance item_le_dec `{FloatRepr} : RelDecision item_le.
Proof. intros x y. unfold item_le. apply _. Defined.

Definition sorted `{FloatRepr} (items : pydict) : pydict :=
  merge_sort item_le items.

(** ** [str.encode()]: UTF-8 *)
Definition utf8_char (ch : ascii) : list byte :=
  let n := N_of_ascii ch in
  if (n <? 128)%N then [byte_of_ascii ch]
  else [byte_of_ascii (ascii_of_N (192 + n / 64));
        byte_of_ascii (ascii_of_N (128 + n mod 64))].

Fixpoint encode (s : string) : list byte :=
  match s with
  | "" => []
  | String ch s' => utf8_char ch ++ encode s'
  end.

(** ** The canonical encoding: [str(sorted(data.items())).encode()]

    (signature.py line 24, routes/iot.py line 31, device_simulator.py
    line 32). *)
Definition canonical_str `{FloatRepr} (data : pydict) : string :=
  "[" +:+ join_repr tuple_repr (sorted data) +:+ "]".

Definition canonical_encoding `{FloatRepr} (data : pydict) : list byte :=
  encode (canonical_str data).

(** A small instance for examples: floats with an integral value, printed
    as [<int>.0]. *)
Definition integral_floats : FloatRepr :=
  {| pyfloat := Z; float_repr := λ z, int_repr z +:+ ".0" |}.

(* ================================================================== *)
(** * 2. Reading the encoding back *)
(* ================================================================== *)

(** The definitions below are not part of the program: they are the
    decoders and predicates used to state and prove that the canonical
    encoding determines the payload. *)

Fixpoint decode (bs : list byte) : string :=
  match bs with
  | [] => ""
  | b :: bs' =>
      let n := Byte.to_N b in
      if (n <? 128)%N then String (ascii_of_byte b) (decode bs')
      else
        match bs' with
        | b2 :: bs'' =>
            String (ascii_of_N ((n - 192) * 64 + (Byte.to_N b2 - 128)))
              (decode bs'')
        | [] => ""
        end
  end.

Definition hexval (c : ascii) : N :=
  let n := N_of_ascii c in
  if (n <? 58)%N then n - 48 else n - 87.

Definition push (c : ascii) (p : option (string * string)) : option (string * string) :=
  match p with
  | Some (s, r) => Some (String c s, r)
  | None => None
  end.

Fixpoint parse_quoted (q : ascii) (s : string) : option (string * string) :=
  match s with
  | "" => None
  | String c s1 =>
      if (c =? q)%char then Some ("", s1)
      else if (c =? "\")%char then
        match s1 with
        | String e s2 =>
            if (e =? "t")%char then push (ascii_of_N 9) (parse_quoted q s2)
            else if (e =? "n")%char then push (ascii_of_N 10) (parse_quoted q s2)
            else if (e =? "r")%char then push (ascii_of_N 13) (parse_quoted q s2)
            else if (e =? "x")%char then
              match s2 with
              | String h1 (String h2 s3) =>
                  push (ascii_of_N (16 * hexval h1 + hexval h2)) (parse_quoted q s3)
              | _ => None
              end
            else push e (parse_quoted q s2)
        | "" => None
        end
      else push c (parse_quoted q s1)
  end.

Definition parse_str (s : string) : option (string * string) :=
  match s with
  | String q s' =>
      if (q =? squote)%char || (q =? dquote)%char then parse_quoted q s' else None
  | "" => None
  end.

Fixpoint all_chars (p : ascii → bool) (s : string) : bool :=
  match s with
  | "" => true
  | String c s' => p c && all_chars p s'
  end.

Definition is_int_char (c : ascii) : bool := contains c "0123456789-".
Definition is_num_char (c : ascii) : bool := contains c "0123456789-+.einfa".

(** A continuation after which a number cannot go on. *)
Definition stop (r : string) : bool :=
  match r with
  | "" => true
  | String c _ => negb (is_num_char c)
  end.

(** An item printed by [f] is read back unambiguously when a separator
    follows it. *)
Definition item_unamb {A} (f : A → string) (x : A) : Prop :=
  ∀ y k1 k2, stop k1 = true → stop k2 = true →
    f x +:+ k1 = f y +:+ k2 → x = y ∧ k1 = k2.

(** What the injectivity of the encoding needs to know about the textual
    form of floats: distinct floats print differently; the text is made of
    digits, signs, [.], [e] and the letters of [inf] and [nan]; and it is
    never an integer literal. *)
Class FloatReprLaws `{FloatRepr} : Prop := {
  float_repr_inj f g : float_repr f = float_repr g → f = g;
  float_repr_chars f : all_chars is_num_char (float_repr f) = true;
  float_repr_not_int f : all_chars is_int_char (float_repr f) = false;
}.

Inductive kind := KNone | KBool | KNum | KStr | KList | KDict.

Definition kind_of `{FloatRepr} (v : pyval) : kind :=
  match v with
  | PyNone => KNone
  | PyBool _ => KBool
  | PyInt _ | PyFloat _ => KNum
  | PyStr _ => KStr
  | PyList _ => KList
  | PyDict _ => KDict
  end.

Definition head_kind (c : ascii) : option kind :=
  if is_num_char c then Some KNum
  else if (c =? "N")%char then Some KNone
  else if (c =? "T")%char || (c =? "F")%char then Some KBool
  else if (c =? squote)%char || (c =? dquote)%char then Some KStr
  else if (c =? "[")%char then Some KList
  else if (c =? "{")%char then Some KDict
  else None.

Definition head (s : string) : option ascii :=
  match s with
  | "" => None
  | String c _ => Some c
  end.

Definition dict_item_repr `{FloatRepr} (kv : string * pyval) : string :=
  str_repr kv.1 +:+ ": " +:+ repr kv.2.

Definition repr_unamb_at `{FloatRepr} (v1 : pyval) : Prop :=
  ∀ v2 r1 r2, stop r1 = true → stop r2 = true →
    repr v1 +:+ r1 = repr v2 +:+ r2 → v1 = v2 ∧ r1 = r2.

(** Two values with the same content: equal up to the insertion order of
    the keys of the dictionaries in them, at any depth. *)
Inductive same_content `{FloatRepr} : pyval → pyval → Prop :=
  | same_refl v : same_content v v
  | same_list l1 l2 :
      Forall2 same_content l1 l2 → same_content (PyList l1) (PyList l2)
  | same_dict d1 d2 d2' :
      d2' ≡ₚ d2 →
      Forall2 (λ x y, x.1 = y.1 ∧ same_content x.2 y.2) d1 d2' →
      same_content (PyDict d1) (PyDict d2).

(* ================================================================== *)
(** * 3. Exceptions, program state and effects *)
(* ================================================================== *)

(** Python exceptions, as far as the handlers tell them apart:
    [HTTPException] is turned into a response by the framework, everything
    else is only ever caught as [Exception] and printed with [str(e)]. *)
Inductive exn :=
  | Exception (msg : string)
  | ValueError (msg : string)
  | HTTPException (status_code : Z) (detail : string).

Definition str_exn (e : exn) : string :=
  match e with
  | Exception msg | ValueError msg => msg
  | HTTPException code detail => int_repr code +:+ ": " +:+ detail
  end.

Inductive result (A : Type) :=
  | Ok (a : A)
  | Raise (e : exn).
Arguments Ok {A} a.
Arguments Raise {A} e.

(** The two module-level dictionaries: [device_registry] (routes/iot.py) and
    [DEVICE_PUBLIC_KEYS] (services/signature.py). *)
Record state := {
  device_registry : gmap string string;
  DEVICE_PUBLIC_KEYS : gmap string string;
}.

Definition initial_state : state :=
  {| device_registry := ∅; DEVICE_PUBLIC_KEYS := ∅ |}.

(** Calls that leave the process: the IPFS daemon and the ledger node. *)
Inductive event :=
  | IpfsAddBytes (json_bytes : list byte)
  | EthGetTransactionCount (account : string)
  | EthGasPrice
  | EthSendRawTransaction (raw : list byte)
  | EthWaitForTransactionReceipt (tx_hash : list byte) (timeout : Z).

(** A computation reads and writes the module state, performs external
    calls (recorded in order) and returns or raises. *)
Definition io (A : Type) : Type := state → state * list event * result A.

Global Instance io_ret : MRet io := λ A a st, (st, [], Ok a).

Global Instance io_bind : MBind io := λ A B f m st,
  match m st with
  | (st1, tr1, Ok a) => let '(st2, tr2, r) := f a st1 in (st2, tr1 ++ tr2, r)
  | (st1, tr1, Raise e) => (st1, tr1, Raise e)
  end.

Definition raise {A} (e : exn) : io A := λ st, (st, [], Raise e).

(** [try: m  except Exception as e: h e] *)
Definition try_except {A} (m : io A) (h : exn → io A) : io A := λ st,
  match m st with
  | (st1, tr1, Ok a) => (st1, tr1, Ok a)
  | (st1, tr1, Raise e) => let '(st2, tr2, r) := h e st1 in (st2, tr1 ++ tr2, r)
  end.

(** A library call that stays inside the process. *)
Definition lift {A} (r : result A) : io A := λ st, (st, [], r).

(** A call to an external service: recorded, whether it returns or raises. *)
Definition call {A} (ev : event) (r : result A) : io A := λ st, (st, [ev], r).

Definition gets {A} (f : state → A) : io A := λ st, (st, [], Ok (f st)).
Definition modify (f : state → state) : io unit := λ st, (f st, [], Ok tt).

(* ================================================================== *)
(** * 4. The libraries and services the code calls *)
(* ================================================================== *)

(** Arguments of a contract function. *)
Inductive abi_value :=
  | AbiString (s : string)
  | AbiAddress (a : string)
  | AbiBytes (b : list byte).

Record TxParams := {
  tx_from : string;
  tx_nonce : Z;
  tx_gas : Z;
  tx_gasPrice : Z;
}.

Record Receipt := {
  receipt_status : Z;
  receipt_blockNumber : Z;
}.

(** What the imported packages compute or answer; [Raise] stands for any
    exception they may throw. *)
Class Externals `{FloatRepr} := {
  (* hashlib *)
  sha256 : list byte → list byte;
  (* bytes.fromhex, base64.b64decode *)
  bytes_fromhex : string → result (list byte);
  b64decode : string → result (list byte);
  (* ecdsa: VerifyingKey.from_string(..., curve=SECP256k1), vk.verify *)
  VerifyingKey : Type;
  from_string : list byte → result VerifyingKey;
  verify : VerifyingKey → list byte → list byte → result bool;
  (* json.dumps, ipfshttpclient client.add_bytes *)
  json_dumps : pydict → result string;
  add_bytes : list byte → result string;
  (* web3 *)
  to_checksum_address : string → result string;
  ContractFunction : Type;
  contract_functions : string → list abi_value → result ContractFunction;
  get_transaction_count : string → result Z;
  gas_price : result Z;
  Transaction : Type;
  build_transaction : ContractFunction → TxParams → result Transaction;
  sign_transaction : Transaction → string → result (list byte);
  send_raw_transaction : list byte → result (list byte);
  wait_for_transaction_receipt : list byte → Z → result Receipt;
  hex : list byte → string;
}.

Record BlockchainConfig := {
  provider_url : string;
  contract_address : string;
  private_key : string;
  account_address : string;
}.

(** The process-wide [blockchain_service = BlockchainService()]. *)
Class BlockchainService := { config : BlockchainConfig }.

(* ================================================================== *)
(** * 5. Services *)
(* ================================================================== *)

(** The JSON object a handler returns. *)
Abbreviation json_object := (list (string * string)).

Section services.
Context `{FloatRepr} `{!Externals} `{!BlockchainService}.

(** ** services/signature.py *)

(** [verify_signature(device_id, data, signature) -> bool] *)
Definition verify_signature (device_id : string) (data : pydict)
    (signature : string) : io bool :=
  pubkey_hex ← gets (λ st, DEVICE_PUBLIC_KEYS st !! device_id);
  match pubkey_hex with
  | None => mret false
  | Some pubkey_hex =>
      if String.eqb pubkey_hex "" || (String.length pubkey_hex <? 64)%nat
      then mret false
      else
        try_except
          (let data_bytes := canonical_encoding data in
           let data_hash := sha256 data_bytes in
           key_bytes ← lift (bytes_fromhex pubkey_hex);
           vk ← lift (from_string key_bytes);
           sig_bytes ← lift (b64decode signature);
           lift (verify vk sig_bytes data_hash))
          (λ _, mret false)
  end.

(** ** services/ipfs.py *)

(** [upload_to_ipfs(data) -> str] *)
Definition upload_to_ipfs (data : pydict) : io string :=
  json_str ← lift (json_dumps data);
  let json_bytes := encode json_str in
  res ← call (IpfsAddBytes json_bytes) (add_bytes json_bytes);
  mret res.

(** ** services/blockchain.py *)

Record TransactionResult := {
  tx_hash : string;
  status : Z;
  block_number : Z;
}.

(** [execute_contract_function(function_name, *args)]: the dictionary
    built from the receipt, or [None] after any exception. *)
Definition execute_contract_function (function_name : string)
    (args : list abi_value) : io (option TransactionResult) :=
  try_except
    (contract_function ← lift (contract_functions function_name args);
     nonce ← call (EthGetTransactionCount (account_address config))
                  (get_transaction_count (account_address config));
     price ← call EthGasPrice gas_price;
     tx ← lift (build_transaction contract_function
                  {| tx_from := account_address config;
                     tx_nonce := nonce;
                     tx_gas := 2000000;
                     tx_gasPrice := price |});
     raw ← lift (sign_transaction tx (private_key config));
     txh ← call (EthSendRawTransaction raw) (send_raw_transaction raw);
     receipt ← call (EthWaitForTransactionReceipt txh 120)
                    (wait_for_transaction_receipt txh 120);
     mret (Some {| tx_hash := hex txh;
                   status := receipt_status receipt;
                   block_number := receipt_blockNumber receipt |}))
    (λ _, mret None).

(** [store_data_hash]: the result dictionary turned into a [TransactionResult], or [None];
    a dictionary with three keys is true. *)
Definition store_data_hash (ipfs_hash data_type device_address : string)
    (data_hash : list byte) : io (option TransactionResult) :=
  result ← execute_contract_function "storeDataHash"
             [AbiString ipfs_hash; AbiString data_type;
              AbiAddress device_address; AbiBytes data_hash];
  mret result.

(** ** routes/iot.py *)

Definition get_device_address (device_id : string) : io string :=
  try_except (lift (to_checksum_address device_id))
    (λ _, lift (to_checksum_address (account_address config))).

(** [store_hash_on_chain(device_id, cid, data, data_type)]; an instance of
    [TransactionResult] is true, [None] is false. *)
Definition store_hash_on_chain (device_id cid : string) (data : pydict)
    (data_type : string) : io string :=
  device_address ← get_device_address device_id;
  let data_bytes := canonical_encoding data in
  let data_hash := sha256 data_bytes in
  tx_result ← store_data_hash cid data_type device_address data_hash;
  match tx_result with
  | None => raise (Exception "Blockchain transaction failed")
  | Some tx_result => mret (tx_hash tx_result)
  end.

Record DeviceRegisterRequest := {
  reg_device_id : string;
  reg_public_key : string;
}.

(** [device_registry[req.device_id] = req.public_key] *)
Definition write_device_registry (req : DeviceRegisterRequest) (st : state)
    : state :=
  {| device_registry :=
       <[reg_device_id req := reg_public_key req]> (device_registry st);
     DEVICE_PUBLIC_KEYS := DEVICE_PUBLIC_KEYS st |}.

(** [DEVICE_PUBLIC_KEYS[req.device_id] = req.public_key] *)
Definition write_DEVICE_PUBLIC_KEYS (req : DeviceRegisterRequest) (st : state)
    : state :=
  {| device_registry := device_registry st;
     DEVICE_PUBLIC_KEYS :=
       <[reg_device_id req := reg_public_key req]> (DEVICE_PUBLIC_KEYS st) |}.

(** [POST /register] *)
Definition register_device (req : DeviceRegisterRequest) : io json_object :=
  if String.eqb (reg_device_id req) "" || String.eqb (reg_public_key req) ""
  then raise (HTTPException 400 "device_id and public_key are required")
  else
    _ ← modify (write_device_registry req);
    _ ← modify (write_DEVICE_PUBLIC_KEYS req);
    mret [("message", "Device registered successfully")].

(** ** models/iot_data.py: [IoTData] and its validator *)

Record IoTData := {
  device_id : string;
  data : pydict;
  signature : string;
}.

Definition validate_device_id (v : string) : result string :=
  if String.prefix "IOT-" v then Ok v
  else Raise (ValueError "device_id must start with IOT-").

(** Construction of the model from a (well-typed) request body. *)
Definition IoTData_validate (body : IoTData) : result IoTData :=
  match validate_device_id (device_id body) with
  | Ok v => Ok {| device_id := v; data := data body; signature := signature body |}
  | Raise e => Raise e
  end.

(** [POST /upload] *)
Definition upload_iot_data (iot_data : IoTData) : io json_object :=
  registered ← gets (λ st, bool_decide (is_Some (device_registry st !! device_id iot_data)));
  if negb registered
  then raise (HTTPException 401 "Device not registered")
  else
    valid ← verify_signature (device_id iot_data) (data iot_data) (signature iot_data);
    if negb valid
    then raise (HTTPException 401 "Invalid signature or fake device")
    else
      cid ← try_except (upload_to_ipfs (data iot_data))
              (λ e, raise (HTTPException 500 ("IPFS upload failed: " +:+ str_exn e)));
      txh ← try_except
              (store_hash_on_chain (device_id iot_data) cid (data iot_data) "sensor")
              (λ e, raise (HTTPException 500 ("Blockchain write failed: " +:+ str_exn e)));
      mret [("message", "Upload successful");
            ("device_id", device_id iot_data);
            ("ipfs_cid", cid);
            ("tx_hash", txh)].

(** ** The framework around the handlers *)

Inductive response :=
  | Success (body : json_object)
  | Error (status_code : Z) (detail : string).

(** An [HTTPException] raised by a handler becomes its response, any other
    exception 500. *)
Definition respond (r : result json_object) : response :=
  match r with
  | Ok body => Success body
  | Raise (HTTPException code detail) => Error code detail
  | Raise _ => Error 500 "Internal Server Error"
  end.

Definition serve (m : io json_object) (st : state)
    : state * list event * response :=
  let '(st', tr, r) := m st in (st', tr, respond r).

Inductive request :=
  | POST_register (req : DeviceRegisterRequest)
  | POST_upload (body : IoTData).

Definition handle (rq : request) : state → state * list event * response :=
  match rq with
  | POST_register req => serve (register_device req)
  | POST_upload body =>
      match IoTData_validate body with
      | Ok iot_data => serve (upload_iot_data iot_data)
      | Raise e => λ st, (st, [], Error 422 (str_exn e))
      end
  end.

(** ** Requests in flight

    [register_device] is a plain [def]: the framework runs it on a worker
    thread, and another request can run between its two assignments.
    [upload_iot_data] makes no assignment. The server, seen between two
    statements, is the two dictionaries together with the registrations
    that have made their first assignment and not yet their second. *)
Record server := {
  shared : state;
  in_flight : list DeviceRegisterRequest;
}.

Definition initial_server : server :=
  {| shared := initial_state; in_flight := [] |}.

Inductive step : server → server → Prop :=
  (* a request handled with no other thread running inside it *)
  | step_request rq s :
      step s {| shared := (handle rq (shared s)).1.1;
                in_flight := in_flight s |}
  (* a registration passes its check and makes its first assignment *)
  | step_first_write req s :
      reg_device_id req ≠ "" → reg_public_key req ≠ "" →
      step s {| shared := write_device_registry req (shared s);
                in_flight := req :: in_flight s |}
  (* a registration in flight makes its second assignment and returns *)
  | step_second_write req l1 l2 s :
      in_flight s = l1 ++ req :: l2 →
      step s {| shared := write_DEVICE_PUBLIC_KEYS req (shared s);
                in_flight := l1 ++ l2 |}.

(** States the server can be in: the initial one and those after any
    sequence of steps of its requests. *)
Inductive reachable : server → Prop :=
  | reachable_init : reachable initial_server
  | reachable_step s s' : reachable s → step s s' → reachable s'.

(** The states reached when every request is handled to its end before the
    next one starts. *)
Inductive handled_in_turn : state → Prop :=
  | handled_in_turn_init : handled_in_turn initial_state
  | handled_in_turn_step st rq :
      handled_in_turn st → handled_in_turn (handle rq st).1.1.
End services.

(* ================================================================== *)
(** * 6. Vocabulary of the statements *)
(* ================================================================== *)

Section specifications.
Context `{FloatRepr} `{!Externals} `{!BlockchainService}.

(** What [verify_signature] returns when it gets past the two guards. *)
Definition signature_checks (st : state) (device_id : string) (data : pydict)
    (signature : string) : Prop :=
  ∃ pubkey_hex key_bytes vk sig_bytes,
    DEVICE_PUBLIC_KEYS st !! device_id = Some pubkey_hex
    ∧ (64 ≤ String.length pubkey_hex)%nat
    ∧ bytes_fromhex pubkey_hex = Ok key_bytes
    ∧ from_string key_bytes = Ok vk
    ∧ b64decode signature = Ok sig_bytes
    ∧ verify vk sig_bytes (sha256 (canonical_encoding data)) = Ok true.

(** The storage and anchoring stages, entered once the signature is
    verified. *)
Definition store_and_anchor (iot_data : IoTData) : io json_object :=
  cid ← try_except (upload_to_ipfs (data iot_data))
          (λ e, raise (HTTPException 500 ("IPFS upload failed: " +:+ str_exn e)));
  txh ← try_except
          (store_hash_on_chain (device_id iot_data) cid (data iot_data) "sensor")
          (λ e, raise (HTTPException 500 ("Blockchain write failed: " +:+ str_exn e)));
  mret [("message", "Upload successful");
        ("device_id", device_id iot_data);
        ("ipfs_cid", cid);
        ("tx_hash", txh)].

(** The state after a successful registration: the key is stored under the
    id in both dictionaries. *)
Definition registered (req : DeviceRegisterRequest) (st : state) : state :=
  {| device_registry :=
       <[reg_device_id req := reg_public_key req]> (device_registry st);
     DEVICE_PUBLIC_KEYS :=
       <[reg_device_id req := reg_public_key req]> (DEVICE_PUBLIC_KEYS st) |}.

(** The two dictionaries hold the same keys, none of them empty. *)
Definition registries_in_sync (st : state) : Prop :=
  device_registry st = DEVICE_PUBLIC_KEYS st
  ∧ ∀ id pk, device_registry st !! id = Some pk → pk ≠ "".

(** The external calls of one anchor attempt that reaches the receipt. *)
Definition anchor_trace (raw txh : list byte) : list event :=
  [EthGetTransactionCount (account_address config); EthGasPrice;
   EthSendRawTransaction raw; EthWaitForTransactionReceipt txh 120].

(** Every step of the attempt went through: the contract function was
    found, the transaction was built with the nonce and the gas price read
    from the node, signed, submitted as [raw], and [receipt] was obtained
    for its hash [txh]. *)
Definition anchor_attempt (function_name : string) (args : list abi_value)
    (raw txh : list byte) (receipt : Receipt) : Prop :=
  ∃ fn nonce price tx,
    contract_functions function_name args = Ok fn
    ∧ get_transaction_count (account_address config) = Ok nonce
    ∧ gas_price = Ok price
    ∧ build_transaction fn {| tx_from := account_address config;
                              tx_nonce := nonce;
                              tx_gas := 2000000;
                              tx_gasPrice := price |} = Ok tx
    ∧ sign_transaction tx (private_key config) = Ok raw
    ∧ send_raw_transaction raw = Ok txh
    ∧ wait_for_transaction_receipt txh 120 = Ok receipt.

(** The arguments [store_hash_on_chain] passes to [storeDataHash]. *)
Definition anchor_args (cid data_type device_address : string) (data : pydict)
    : list abi_value :=
  [AbiString cid; AbiString data_type; AbiAddress device_address;
   AbiBytes (sha256 (canonical_encoding data))].
End specifications.

(* ================================================================== *)
(** * 7. A small concrete world for examples *)
(* ================================================================== *)

(** Stand-ins for the libraries and for the ledger node, simple enough to
    compute with: the digest keeps the first 32 bytes, a key is accepted when
    it has 64 bytes, a signature is accepted when it equals the digest, and
    the node answers every call; [status_of_receipt] is the status of the
    receipt it returns. The JSON text is stood in for by [repr]. *)
Definition demo_externals (status_of_receipt : Z) : @Externals integral_floats := {|
  sha256 := take 32;
  bytes_fromhex := λ s,
    if Nat.even (String.length s) then Ok (take (String.length s / 2) (list_byte_of_string s))
    else Raise (ValueError "non-hexadecimal number found in fromhex() arg");
  b64decode := λ s,
    if String.eqb s "" then Raise (Exception "Incorrect padding")
    else Ok (list_byte_of_string s);
  VerifyingKey := list byte;
  from_string := λ b,
    if (length b =? 64)%nat then Ok b
    else Raise (Exception "MalformedPointError");
  verify := λ vk sig h,
    if String.eqb (string_of_list_byte sig) (string_of_list_byte h) then Ok true
    else Raise (Exception "BadSignatureError");
  json_dumps := λ d, Ok (repr (PyDict d));
  add_bytes := λ b, Ok "QmExampleCid";
  to_checksum_address := λ s,
    if String.prefix "0x" s then Ok s
    else Raise (ValueError "Unknown format, attempted to normalize to 0x");
  ContractFunction := string * list abi_value;
  contract_functions := λ name args, Ok (name, args);
  get_transaction_count := λ _, Ok 7;
  gas_price := Ok 1000000000;
  Transaction := (string * list abi_value) * TxParams;
  build_transaction := λ fn params, Ok (fn, params);
  sign_transaction := λ tx key, Ok (list_byte_of_string "signed");
  send_raw_transaction := λ raw, Ok (list_byte_of_string "txhash");
  wait_for_transaction_receipt := λ txh timeout,
    Ok {| receipt_status := status_of_receipt; receipt_blockNumber := 12 |};
  hex := λ b, "0x" +:+ string_of_list_byte b;
|}.

Definition demo_service : BlockchainService := {|
  config := {| provider_url := "http://127.0.0.1:8545";
               contract_address := "0xC0FFEE";
               private_key := "0xKEY";
               account_address := "0xACC0" |}
|}.

Definition demo_public_key : string :=
  "a1b2c3d4e5f60718293a4b5c6d7e8f90a1b2c3d4e5f60718293a4b5c6d7e8f90a1b2c3d4e5f60718293a4b5c6d7e8f90a1b2c3d4e5f60718293a4b5c6d7e8f90".

(** The key of another device. *)
Definition demo_other_key : string :=
  "0f1e2d3c4b5a69788796a5b4c3d2e1f00f1e2d3c4b5a69788796a5b4c3d2e1f00f1e2d3c4b5a69788796a5b4c3d2e1f00f1e2d3c4b5a69788796a5b4c3d2e1f0".

Definition demo_register : DeviceRegisterRequest :=
  {| reg_device_id := "IOT-AB12CD34"; reg_public_key := demo_public_key |}.

Definition demo_state : state :=
  {| device_registry := {["IOT-AB12CD34" := demo_public_key]};
     DEVICE_PUBLIC_KEYS := {["IOT-AB12CD34" := demo_public_key]} |}.

Definition demo_data : list (string * @pyval integral_floats) :=
  [("temperature", @PyFloat integral_floats 22); ("humidity", PyInt 60)].

(** The payload signed as the stand-in [verify] expects. *)
Definition demo_upload : @IoTData integral_floats :=
  {| device_id := "IOT-AB12CD34";
     data := demo_data;
     signature := "[('humidity', 60), ('temperature" |}.

(** A node whose receipts report a reverted transaction (status 0), and one
    whose receipts report success (status 1). *)
Definition reverting_node : @Externals integral_floats := demo_externals 0.
Definition accepting_node : @Externals integral_floats := demo_externals 1.

Definition demo_json : string := "{'temperature': 22.0, 'humidity': 60}".
Definition demo_raw : list byte := list_byte_of_string "signed".
Definition demo_txh : list byte := list_byte_of_string "txhash".

Definition payload_ab : list (string * @pyval integral_floats) :=
  [("reading", PyDict [("a", PyInt 1); ("b", PyInt 2)])].
Definition payload_ba : list (string * @pyval integral_floats) :=
  [("reading", PyDict [("b", PyInt 2); ("a", PyInt 1)])].
Definition payload_th : list (string * @pyval integral_floats) :=
  [("temperature", @PyFloat integral_floats 22); ("humidity", PyInt 60)].
Definition payload_ht : list (string * @pyval integral_floats) :=
  [("humidity", PyInt 60); ("temperature", @PyFloat integral_floats 22)].

(** The same stand-ins with a choice of what the JSON encoder, the content
    store and the receipt wait answer. *)
Definition demo_externals_with (dumps : list (string * @pyval integral_floats) → result string)
    (add : list byte → result string)
    (wait : list byte → Z → result Receipt) : @Externals integral_floats := {|
  sha256 := take 32;
  bytes_fromhex := λ s,
    if Nat.even (String.length s) then Ok (take (String.length s / 2) (list_byte_of_string s))
    else Raise (ValueError "non-hexadecimal number found in fromhex() arg");
  b64decode := λ s,
    if String.eqb s "" then Raise (Exception "Incorrect padding")
    else Ok (list_byte_of_string s);
  VerifyingKey := list byte;
  from_string := λ b,
    if (length b =? 64)%nat then Ok b
    else Raise (Exception "MalformedPointError");
  verify := λ vk sig h,
    if String.eqb (string_of_list_byte sig) (string_of_list_byte h) then Ok true
    else Raise (Exception "BadSignatureError");
  json_dumps := dumps;
  add_bytes := add;
  to_checksum_address := λ s,
    if String.prefix "0x" s then Ok s
    else Raise (ValueError "Unknown format, attempted to normalize to 0x");
  ContractFunction := string * list abi_value;
  contract_functions := λ name args, Ok (name, args);
  get_transaction_count := λ _, Ok 7;
  gas_price := Ok 1000000000;
  Transaction := (string * list abi_value) * TxParams;
  build_transaction := λ fn params, Ok (fn, params);
  sign_transaction := λ tx key, Ok (list_byte_of_string "signed");
  send_raw_transaction := λ raw, Ok (list_byte_of_string "txhash");
  wait_for_transaction_receipt := wait;
  hex := λ b, "0x" +:+ string_of_list_byte b;
|}.

(** A world whose content store is unreachable, and one whose receipts never
    arrive. *)
Definition unreachable_store : @Externals integral_floats :=
  demo_externals_with (λ d, Ok (repr (PyDict d)))
    (λ _, Raise (Exception "ConnectionError"))
    (λ _ _, Ok {| receipt_status := 1; receipt_blockNumber := 12 |}).
Definition silent_node : @Externals integral_floats :=
  demo_externals_with (λ d, Ok (repr (PyDict d)))
    (λ _, Ok "QmExampleCid")
    (λ _ _, Raise (Exception "TimeExhausted")).

(* ================================================================== *)
(** * 7b. The device simulator (iot_device/device_simulator.py) *)
(* ================================================================== *)

(** A response of the backend as the device sees it. *)
Record HttpResponse := {
  status_code : Z;
  text : string;
}.

(** What the device's process is given: the ecdsa signing key and its
    operations, base64, [str.upper], the key file, the HTTP client, the
    module-level settings read from the environment, and the readings
    (which depend on the clock: [mock_sensor_data i] is the one generated
    at the [i]-th call). *)
Class DeviceExternals `{FloatRepr} := {
  SigningKey : Type;
  (* private_key.sign(data_hash) *)
  sign : SigningKey → list byte → result (list byte);
  (* base64.b64encode(signature).decode() *)
  b64encode : list byte → string;
  (* sk.get_verifying_key().to_string("uncompressed").hex() *)
  verifying_key_hex : SigningKey → string;
  str_upper : string → string;
  (* SigningKey.from_pem(open(pem_path, 'rb').read()) *)
  from_pem_file : string → result SigningKey;
  (* requests.post(url, json=payload) *)
  requests_post : string → request → result HttpResponse;
  DEVICE_ID : string;
  PRIVATE_KEY_PATH : string;
  BACKEND_URL : string;
  BACKEND_REGISTER_URL : string;
  mock_sensor_data : nat → pydict;
}.

(** The requests the device sends, in order. *)
Inductive device_event `{FloatRepr} :=
  | Post (url : string) (payload : request).

(** A device computation: the requests sent, and a value or an exception. *)
Definition dev `{FloatRepr} (A : Type) : Type := list device_event * result A.

Global Instance dev_ret `{FloatRepr} : MRet dev := λ A a, ([], Ok a).

Global Instance dev_bind `{FloatRepr} : MBind dev := λ A B f m,
  match m with
  | (tr1, Ok a) => let '(tr2, r) := f a in (tr1 ++ tr2, r)
  | (tr1, Raise e) => (tr1, Raise e)
  end.

Module device_simulator.
Section device_simulator.
Context `{FloatRepr} `{!Externals} `{!DeviceExternals}.

Definition load_private_key (pem_path : string) : dev SigningKey :=
  ([], from_pem_file pem_path).

(** [sign_data(private_key, data) -> str] *)
Definition sign_data (private_key : SigningKey) (data : pydict) : dev string :=
  let serialized := canonical_encoding data in
  let data_hash := sha256 serialized in
  signature ← ([], sign private_key data_hash);
  mret (b64encode signature).

(** [try: m  except Exception: h], on the device. *)
Definition dev_try {A} (m : dev A) (h : exn → dev A) : dev A :=
  match m with
  | (tr1, Ok a) => (tr1, Ok a)
  | (tr1, Raise e) => let '(tr2, r) := h e in (tr1 ++ tr2, r)
  end.


(** [register_device(device_id, private_key_path)] with the default URL:
    [True] when the backend answers 200, [False] otherwise and after any
    exception. *)
Definition register_device (device_id private_key_path : string) : dev bool :=
  dev_try
    (sk ← load_private_key private_key_path;
     let pubkey_hex := verifying_key_hex sk in
     let payload :=
       POST_register {| reg_device_id := device_id;
                        reg_public_key := pubkey_hex |} in
     response ← ([Post BACKEND_REGISTER_URL payload],
                 requests_post BACKEND_REGISTER_URL payload);
     mret (status_code response =? 200))
    (λ _, mret false).




(** [pubkey_hex[-8:]]: the last eight characters, or the whole string when
    it is shorter. *)
Definition last8 (s : string) : string :=
  String.substring (String.length s - 8) 8 s.

(** The identifier [create_sample_device] builds when none is given. *)
Definition sample_device_id (pubkey_hex : string) : string :=
  "IOT-" +:+ str_upper (last8 pubkey_hex).
End device_simulator.
End device_simulator.

(** [str.upper] on the letters a to z. *)
Fixpoint ascii_upper (s : string) : string :=
  match s with
  | "" => ""
  | String c s' =>
      let n := N_of_ascii c in
      String (if (97 <=? n)%N && (n <=? 122)%N then ascii_of_N (n - 32) else c)
        (ascii_upper s')
  end.

(** A stand-in device whose signature of a digest is the digest itself (what
    the stand-in [verify] accepts) and whose backend cannot be reached. *)
Definition demo_device : @DeviceExternals integral_floats := {|
  SigningKey := unit;
  sign := λ _ h, Ok h;
  b64encode := string_of_list_byte;
  verifying_key_hex := λ _, demo_public_key;
  str_upper := ascii_upper;
  from_pem_file := λ path,
    if String.eqb path "" then Raise (Exception "FileNotFoundError") else Ok tt;
  requests_post := λ _ _, Raise (Exception "ConnectionError");
  DEVICE_ID := "IOT-AB12CD34";
  PRIVATE_KEY_PATH := "device_private_key.pem";
  BACKEND_URL := "http://localhost:8000/api/iot/upload";
  BACKEND_REGISTER_URL := "http://localhost:8000/api/iot/register";
  mock_sensor_data := λ i,
    [("temperature", @PyFloat integral_floats (20 + Z.of_nat i));
     ("humidity", PyInt 50);
     ("timestamp", PyInt (1716000000 + Z.of_nat i))];
|}.

(* ================================================================== *)
(** * 7c. Configuration and start-up of the service (services/blockchain.py) *)
(* ================================================================== *)

Global Instance result_ret : MRet result := λ A a, Ok a.

Global Instance result_bind : MBind result := λ A B f m,
  match m with
  | Ok a => f a
  | Raise e => Raise e
  end.

Inductive provider :=
  | WebsocketProvider (url : string)
  | HTTPProvider (url : string).

(** What start-up reads from its surroundings: the environment, the file
    system, the JSON parser ([None] for a [JSONDecodeError]) and web3. *)
Class StartupExternals `{FloatRepr} := {
  getenv : string → option string;
  (* Web3.is_address *)
  is_address : string → bool;
  (* Path(v).exists() *)
  path_exists : string → bool;
  (* open(path, 'r') ... read *)
  read_file : string → result string;
  json_loads : string → option pyval;
  (* Web3(provider).is_connected() *)
  is_connected : provider → bool;
  (* w3.eth.contract(address=..., abi=...) *)
  eth_contract : string → option pyval → result unit;
}.

(** [d[key]] / [key in d] on the items of a dictionary. *)
Fixpoint dict_get `{FloatRepr} (key : string) (d : pydict) : option pyval :=
  match d with
  | [] => None
  | (k, v) :: d' => if String.eqb k key then Some v else dict_get key d'
  end.

(** [BlockchainConfig] with its two ABI fields. *)
Record ServiceConfig `{FloatRepr} := {
  service_config : BlockchainConfig;
  contract_abi_path : string;
  contract_abi : option pyval;
}.

Record Service `{FloatRepr} := {
  svc_config : ServiceConfig;
  svc_w3 : provider;
}.

Section startup.
Context `{FloatRepr} `{!StartupExternals}.

Definition has_url_scheme (v : string) : bool :=
  String.prefix "http://" v || String.prefix "https://" v
  || String.prefix "ws://" v || String.prefix "wss://" v.

Definition validate_provider_url (v : string) : result string :=
  if has_url_scheme v then Ok v
  else Raise (ValueError "Provider URL must be a valid HTTP, HTTPS, WS, or WSS URL").

Definition validate_ethereum_address (v : string) : result string :=
  if is_address v then Ok v
  else Raise (ValueError ("Invalid Ethereum address: " +:+ v)).

Definition validate_abi_path (v : string) : result string :=
  if path_exists v then Ok v
  else Raise (Exception ("ABI file not found at " +:+ v)).

(** [load_abi]: the parsed file, or its ["abi"] entry when the file is an
    artifact (a dictionary with that key); only a JSON syntax error is turned
    into a [ValueError], any other exception of the read goes through. *)
Definition load_abi (path : string) : result (option pyval) :=
  if String.eqb path "" then Ok None
  else
    text ← read_file path;
    match json_loads text with
    | None => Raise (ValueError ("Invalid JSON in ABI file: " +:+ path))
    | Some abi_data =>
        Ok (Some match abi_data with
                 | PyDict d =>
                     match dict_get "abi" d with
                     | Some abi => abi
                     | None => abi_data
                     end
                 | _ => abi_data
                 end)
    end.

(** Construction of a [BlockchainConfig]: the field validators in the order
    of the fields, then [load_abi]. (When several fields are invalid pydantic
    reports them together; here the first failure is the one raised.) *)
Definition new_BlockchainConfig (provider_url contract_address private_key
    account_address contract_abi_path : string) : result ServiceConfig :=
  provider_url ← validate_provider_url provider_url;
  contract_address ← validate_ethereum_address contract_address;
  account_address ← validate_ethereum_address account_address;
  contract_abi_path ← validate_abi_path contract_abi_path;
  contract_abi ← load_abi contract_abi_path;
  mret {| service_config :=
            {| provider_url := provider_url;
               contract_address := contract_address;
               private_key := private_key;
               account_address := account_address |};
          contract_abi_path := contract_abi_path;
          contract_abi := contract_abi |}.

(** [BlockchainService.__init__(config=None)] *)
Definition BlockchainService_init (config : option ServiceConfig) : result Service :=
  config ← match config with
           | Some config => Ok config
           | None =>
               new_BlockchainConfig
                 (default "" (getenv "BLOCKCHAIN_RPC_URL"))
                 (default "" (getenv "CONTRACT_ADDRESS"))
                 (default "" (getenv "PRIVATE_KEY"))
                 (default "" (getenv "ACCOUNT_ADDRESS"))
                 (default "contracts/build/artifacts/DataStorage.json"
                    (getenv "CONTRACT_ABI_PATH"))
           end;
  let url := provider_url (service_config config) in
  let w3 :=
    if String.prefix "ws://" url || String.prefix "wss://" url
    then WebsocketProvider url
    else HTTPProvider url in
  if negb (is_connected w3)
  then Raise (Exception "Failed to connect to the Ethereum node.")
  else
    _ ← eth_contract (contract_address (service_config config))
          (contract_abi config);
    mret {| svc_config := config; svc_w3 := w3 |}.
End startup.

(** The artifact [save_artifacts] of contracts/compile.py writes for a
    compiled contract; the ABI alone goes to a second file. *)
Definition artifact `{FloatRepr} (contract_name : string)
    (abi bytecode deployedBytecode methodIdentifiers gasEstimates metadata : pyval)
    (file_name solc_version : string) : pyval :=
  PyDict [("contractName", PyStr contract_name);
          ("abi", abi);
          ("bytecode", bytecode);
          ("deployedBytecode", deployedBytecode);
          ("methodIdentifiers", methodIdentifiers);
          ("gasEstimates", gasEstimates);
          ("metadata", metadata);
          ("sourceFile", PyStr file_name);
          ("compiler", PyDict [("version", PyStr solc_version);
                               ("optimizer", PyBool true);
                               ("runs", PyInt 200)])].

(** A stand-in environment, file system and node for examples: the two
    files the compiler writes for DataStorage exist, and the node answers. *)
Definition demo_abi : @pyval integral_floats := PyList [PyStr "storeDataHash"].

Definition demo_startup (env : list (string * string)) : @StartupExternals integral_floats := {|
  getenv := λ name, (list_to_map env : gmap string string) !! name;
  is_address := λ v, String.prefix "0x" v;
  path_exists := λ v,
    String.eqb v "contracts/build/artifacts/DataStorage.json"
    || String.eqb v "contracts/build/artifacts/DataStorage_abi.json";
  read_file := λ v,
    if String.eqb v "contracts/build/artifacts/DataStorage.json" then Ok "artifact"
    else if String.eqb v "contracts/build/artifacts/DataStorage_abi.json" then Ok "abi"
    else Raise (Exception "FileNotFoundError");
  json_loads := λ text,
    if String.eqb text "artifact"
    then Some (artifact "DataStorage" demo_abi (PyStr "0x6080") (PyStr "0x6080")
                 (PyDict []) (PyDict []) (PyDict []) "DataStorage.sol" "0.8.20")
    else if String.eqb text "abi" then Some demo_abi
    else None;
  is_connected := λ _, true;
  eth_contract := λ _ _, Ok tt;
|}.

Definition demo_env : list (string * string) :=
  [("BLOCKCHAIN_RPC_URL", "http://127.0.0.1:8545");
   ("CONTRACT_ADDRESS", "0xC0FFEE");
   ("PRIVATE_KEY", "0xKEY");
   ("ACCOUNT_ADDRESS", "0xACC0")].

(** The environment of a configured host, and one where nothing is set. *)
Definition configured_host : @StartupExternals integral_floats := demo_startup demo_env.
Definition bare_host : @StartupExternals integral_floats := demo_startup [].

Definition demo_started_service : @Service integral_floats :=
  {| svc_config :=
       {| service_config := @config demo_service;
          contract_abi_path := "contracts/build/artifacts/DataStorage.json";
          contract_abi := Some demo_abi |};
     svc_w3 := HTTPProvider "http://127.0.0.1:8545" |}.

(* ================================================================== *)
(** * 7d. The deployment script (contracts/deploy.py) *)
(* ================================================================== *)

Module deploy.

Record NetworkConfig := {
  name : string;
  rpc_url : string;
  chain_id : Z;
  explorer : option string;
}.

Definition NETWORKS : list (string * NetworkConfig) :=
  [("amoy", {| name := "Polygon Amoy Testnet";
               rpc_url := "https://polygon-amoy.g.alchemy.com/v2/your-amoy-api-key";
               chain_id := 80002;
               explorer := Some "https://www.oklink.com/amoy/address" |});
   ("polygon", {| name := "Polygon Mainnet";
                  rpc_url := "https://polygon-rpc.com";
                  chain_id := 137;
                  explorer := Some "https://polygonscan.com" |});
   ("localhost", {| name := "Local Development";
                    rpc_url := "http://127.0.0.1:8545";
                    chain_id := 1337;
                    explorer := None |})].

(** [NETWORKS.get(network)] *)
Fixpoint NETWORKS_get (network : string) (l : list (string * NetworkConfig))
    : option NetworkConfig :=
  match l with
  | [] => None
  | (k, v) :: l' => if String.eqb k network then Some v else NETWORKS_get network l'
  end.

(** A [Web3] object: the URL of its HTTP provider and whether the
    proof-of-authority middleware was injected. *)
Record W3 := {
  w3_url : string;
  w3_poa : bool;
}.

Record Receipt := {
  status : Z;
  contractAddress : string;
  gasUsed : Z;
  blockNumber : Z;
}.

(** What a compiled artifact gives the deployer: its ["abi"] entry and its
    ["bytecode"] entry, a text. *)
Record Artifact `{FloatRepr} := {
  artifact_abi : pyval;
  artifact_bytecode : string;
}.

(** The node, the key library, the file system and the clock. *)
Class DeployExternals `{FloatRepr} := {
  Account : Type;
  address : Account → string;
  key : Account → string;
  Contract : Type;
  Constructor : Type;
  Tx : Type;
  Raw : Type;
  TxHash : Type;
  is_connected : W3 → bool;
  eth_chain_id : W3 → result Z;
  from_key : W3 → string → result Account;
  get_balance : W3 → string → result Z;
  (* ARTIFACTS_DIR / name.json: exists, json.load, ["abi"], ["bytecode"] *)
  read_artifact : string → result Artifact;
  eth_contract : W3 → pyval → string → result Contract;
  (* w3.eth.estimate_gas({'from': ..., 'data': ..., 'value': 0}) *)
  eth_estimate_gas : W3 → string → string → result Z;
  (* int(gas_estimate * 1.2), in floating point *)
  times_1_2 : Z → result Z;
  gas_price : W3 → result Z;
  get_transaction_count : W3 → string → result Z;
  constructor : Contract → result Constructor;
  (* from, gas, gasPrice, nonce *)
  build_transaction : Constructor → string → Z → Z → Z → result Tx;
  sign_transaction : W3 → Tx → string → result Raw;
  send_raw_transaction : W3 → Raw → result TxHash;
  wait_for_transaction_receipt : W3 → TxHash → Z → result Receipt;
  hex : TxHash → string;
  Decimal : Type;
  (* w3.from_wei(number, unit) *)
  from_wei : Z → string → result Decimal;
  (* int(time.time()) *)
  time : Z;
}.

Record Deployer `{FloatRepr} `{!DeployExternals} := {
  network : string;
  network_config : NetworkConfig;
  w3 : W3;
  account : Account;
}.

(** The dictionary [deploy_contract] returns. *)
Record DeploymentInfo `{FloatRepr} `{!DeployExternals} := {
  info_name : string;
  info_address : string;
  info_transaction_hash : string;
  info_block_number : Z;
  info_gas_used : Z;
  info_gas_limit : Z;
  info_gas_price : Z;
  info_cost : Decimal;
  info_network : string;
  info_timestamp : Z;
  info_abi : pyval;
}.

(** [s[n:]] *)
Fixpoint slice_from (n : nat) (s : string) : string :=
  match n, s with
  | O, _ => s
  | S n', String _ s' => slice_from n' s'
  | S _, EmptyString => EmptyString
  end.

Section deploy.
Context `{FloatRepr} `{!DeployExternals}.

(** The environment is read, never written: it is a parameter. *)
Definition setup_web3 (environ : gmap string string) (network : string)
    (network_config : NetworkConfig) : result W3 :=
  let rpc_url := default (rpc_url network_config) (environ !! "BLOCKCHAIN_RPC_URL") in
  let w3 := {| w3_url := rpc_url;
               w3_poa := bool_decide (network ∈ ["amoy"; "mumbai"; "polygon"]) |} in
  if negb (is_connected w3)
  then Raise (Exception ("Failed to connect to " +:+ name network_config))
  else
    _ ← eth_chain_id w3;
    mret w3.

Definition setup_account (environ : gmap string string) (w3 : W3)
    : result Account :=
  match environ !! "PRIVATE_KEY" with
  | None | Some "" => Raise (ValueError "PRIVATE_KEY environment variable not set")
  | Some private_key =>
      let private_key :=
        if String.prefix "0x" private_key then slice_from 2 private_key
        else private_key in
      account ← from_key w3 private_key;
      balance ← get_balance w3 (address account);
      _ ← from_wei balance "ether";
      if balance =? 0
      then Raise (ValueError "Insufficient balance for deployment")
      else mret account
  end.

(** [ContractDeployer.__init__] *)
Definition ContractDeployer (environ : gmap string string) (network : string)
    : result Deployer :=
  match NETWORKS_get network NETWORKS with
  | None => Raise (ValueError ("Unsupported network: " +:+ network))
  | Some network_config =>
      w3 ← setup_web3 environ network network_config;
      account ← setup_account environ w3;
      mret {| network := network; network_config := network_config;
              w3 := w3; account := account |}
  end.

Definition estimate_gas (self : Deployer) (contract_bytecode : string) : Z :=
  match
    gas_estimate ← eth_estimate_gas (w3 self) (address (account self))
                     contract_bytecode;
    times_1_2 gas_estimate
  with
  | Ok gas => gas
  | Raise _ => 2000000
  end.

Definition deploy_contract (self : Deployer) (contract_name : string)
    (gas_limit : option Z) : result DeploymentInfo :=
  artifact ← read_artifact contract_name;
  let abi := artifact_abi artifact in
  let bytecode := artifact_bytecode artifact in
  if String.eqb bytecode "" || String.eqb bytecode "0x"
  then Raise (ValueError ("No bytecode found for " +:+ contract_name))
  else
    contract ← eth_contract (w3 self) abi bytecode;
    let gas_limit :=
      match gas_limit with
      | None => estimate_gas self bytecode
      | Some gas_limit => gas_limit
      end in
    gas_price ← gas_price (w3 self);
    _ ← from_wei gas_price "gwei";
    _ ← from_wei (gas_limit * gas_price) "ether";
    ctor ← constructor contract;
    nonce ← get_transaction_count (w3 self) (address (account self));
    transaction ← build_transaction ctor (address (account self)) gas_limit
                    gas_price nonce;
    signed_txn ← sign_transaction (w3 self) transaction (key (account self));
    tx_hash ← send_raw_transaction (w3 self) signed_txn;
    tx_receipt ← wait_for_transaction_receipt (w3 self) tx_hash 300;
    if status tx_receipt =? 0
    then Raise (Exception "Contract deployment failed")
    else
      let contract_address := contractAddress tx_receipt in
      let gas_used := gasUsed tx_receipt in
      actual_cost_eth ← from_wei (gas_used * gas_price) "ether";
      (* gas_used/gas_limit*100 in the report *)
      if gas_limit =? 0
      then Raise (Exception "ZeroDivisionError")
      else
        mret {| info_name := contract_name;
                info_address := contract_address;
                info_transaction_hash := hex tx_hash;
                info_block_number := blockNumber tx_receipt;
                info_gas_used := gas_used;
                info_gas_limit := gas_limit;
                info_gas_price := gas_price;
                info_cost := actual_cost_eth;
                info_network := network self;
                info_timestamp := time;
                info_abi := abi |}.
End deploy.
End deploy.

(** A stand-in node for the deployment examples: every key is an account
    whose address is the key, with a balance of 5 wei. *)
Definition demo_deploy (receipt_status : Z) : @deploy.DeployExternals integral_floats := {|
  deploy.Account := string;
  deploy.address := λ a, a;
  deploy.key := λ a, a;
  deploy.Contract := string;
  deploy.Constructor := string;
  deploy.Tx := string;
  deploy.Raw := string;
  deploy.TxHash := string;
  deploy.is_connected := λ _, true;
  deploy.eth_chain_id := λ _, Ok 1337;
  deploy.from_key := λ _ k, if String.eqb k "" then Raise (ValueError "key") else Ok k;
  deploy.get_balance := λ _ _, Ok 5;
  deploy.read_artifact := λ _,
    Ok {| deploy.artifact_abi := PyList [PyStr "storeDataHash"];
          deploy.artifact_bytecode := "0x6080" |};
  deploy.eth_contract := λ _ _ bytecode, Ok bytecode;
  deploy.eth_estimate_gas := λ _ _ _, Ok 100000;
  deploy.times_1_2 := λ g, Ok (g * 6 / 5);
  deploy.gas_price := λ _, Ok 7;
  deploy.get_transaction_count := λ _ _, Ok 0;
  deploy.constructor := λ c, Ok c;
  deploy.build_transaction := λ c _ _ _ _, Ok c;
  deploy.sign_transaction := λ _ tx _, Ok tx;
  deploy.send_raw_transaction := λ _ raw, Ok "ab12";
  deploy.wait_for_transaction_receipt := λ _ _ _,
    Ok {| deploy.status := receipt_status; deploy.contractAddress := "0xC0FFEE";
          deploy.gasUsed := 90000; deploy.blockNumber := 12 |};
  deploy.hex := λ h, h;
  deploy.Decimal := Z;
  deploy.from_wei := λ number _, Ok number;
  deploy.time := 1716000000;
|}.

Definition funded_node : @deploy.DeployExternals integral_floats := demo_deploy 1.

Definition demo_deployer : @deploy.Deployer integral_floats funded_node :=
  @deploy.Build_Deployer integral_floats funded_node
    "localhost"
    {| deploy.name := "Local Development";
       deploy.rpc_url := "http://127.0.0.1:8545";
       deploy.chain_id := 1337;
       deploy.explorer := None |}
    {| deploy.w3_url := "http://127.0.0.1:8545"; deploy.w3_poa := false |}
    ("abc" : string).

Definition demo_deployment : @deploy.DeploymentInfo integral_floats funded_node :=
  @deploy.Build_DeploymentInfo integral_floats funded_node
    "DataStorage" "0xC0FFEE" "ab12" 12 90000 120000 7 (630000 : Z)
    "localhost" 1716000000 (PyList [PyStr "storeDataHash"]).

(* ================================================================== *)
(** * 8. Properties of the canonical encoding *)
(* ================================================================== *)

(* ---------- strings ---------- *)
Lemma app_cons c s t : String c s +:+ t = String c (s +:+ t).
Proof. reflexivity. Qed.

Lemma app_empty_l t : "" +:+ t = t.
Proof. reflexivity. Qed.

Lemma app_empty_r s : s +:+ "" = s.
Proof. induction s as [|c s IH]; [done|]. by rewrite app_cons, IH. Qed.

Lemma string_app_assoc s1 s2 s3 : (s1 +:+ s2) +:+ s3 = s1 +:+ (s2 +:+ s3).
Proof. induction s1 as [|c s IH]; [done|]. by rewrite !app_cons, IH. Qed.

(* ---------- UTF-8 ---------- *)
Lemma decode_utf8_char ch bs : decode (utf8_char ch ++ bs) = String ch (decode bs).
Proof. destruct ch as [[] [] [] [] [] [] [] []]; reflexivity. Qed.

Lemma decode_encode s : decode (encode s) = s.
Proof.
  induction s as [|ch s IH]; [done|].
  cbn [encode]. by rewrite decode_utf8_char, IH.
Qed.

Lemma encode_inj s1 s2 : encode s1 = encode s2 → s1 = s2.
Proof. intros Heq. rewrite <- (decode_encode s1), Heq. apply decode_encode. Qed.

(* ---------- str repr ---------- *)
Lemma parse_escape_char q ch rest :
  q = squote ∨ q = dquote →
  parse_quoted q (escape_char q ch +:+ rest) = push ch (parse_quoted q rest).
Proof.
  intros [->| ->]; destruct ch as [[] [] [] [] [] [] [] []]; reflexivity.
Qed.

Lemma parse_escape_string q s rest :
  q = squote ∨ q = dquote →
  parse_quoted q (escape_string q s +:+ String q rest) = Some (s, rest).
Proof.
  intros Hq. induction s as [|ch s IH].
  - cbn [escape_string]. rewrite app_empty_l. cbn [parse_quoted].
    by rewrite Ascii.eqb_refl.
  - cbn [escape_string]. rewrite string_app_assoc, parse_escape_char, IH by done.
    done.
Qed.

Lemma choose_quote_cases s : choose_quote s = squote ∨ choose_quote s = dquote.
Proof. unfold choose_quote. destruct (_ && _); auto. Qed.

Lemma parse_str_repr s rest : parse_str (str_repr s +:+ rest) = Some (s, rest).
Proof.
  unfold str_repr. cbn zeta. rewrite app_cons, string_app_assoc, app_cons, app_empty_l.
  cbn [parse_str].
  destruct (choose_quote_cases s) as [Hq|Hq]; rewrite Hq at 1 2; cbn [orb];
    by apply parse_escape_string; rewrite Hq; auto.
Qed.

Lemma str_repr_unamb s1 s2 r1 r2 :
  str_repr s1 +:+ r1 = str_repr s2 +:+ r2 → s1 = s2 ∧ r1 = r2.
Proof.
  intros Heq.
  pose proof (parse_str_repr s1 r1) as H1. rewrite Heq, parse_str_repr in H1.
  by simplify_eq.
Qed.

(* ---------- numbers ---------- *)
Lemma token_unamb a1 a2 r1 r2 :
  all_chars is_num_char a1 = true → all_chars is_num_char a2 = true →
  stop r1 = true → stop r2 = true →
  a1 +:+ r1 = a2 +:+ r2 → a1 = a2 ∧ r1 = r2.
Proof.
  revert a2. induction a1 as [|c1 a1 IH]; intros [|c2 a2] H1 H2 Hr1 Hr2 Heq.
  - done.
  - rewrite app_empty_l, app_cons in Heq. subst r1.
    cbn [stop all_chars] in Hr1, H2. apply andb_true_iff in H2 as [H2 _].
    rewrite H2 in Hr1. done.
  - rewrite app_empty_l, app_cons in Heq. subst r2.
    cbn [stop all_chars] in Hr2, H1. apply andb_true_iff in H1 as [H1 _].
    rewrite H1 in Hr2. done.
  - rewrite !app_cons in Heq. injection Heq as -> Heq.
    cbn [all_chars] in H1, H2. apply andb_true_iff in H1 as [_ H1].
    apply andb_true_iff in H2 as [_ H2].
    destruct (IH a2 H1 H2 Hr1 Hr2 Heq) as [-> ->]. done.
Qed.

Lemma all_chars_impl (p q : ascii → bool) s :
  (∀ c, p c = true → q c = true) → all_chars p s = true → all_chars q s = true.
Proof.
  intros Hpq. induction s as [|c s IH]; [done|]. cbn [all_chars].
  rewrite !andb_true_iff. intros [? ?]. auto.
Qed.

Lemma is_int_num_char c : is_int_char c = true → is_num_char c = true.
Proof. destruct c as [[] [] [] [] [] [] [] []]; done. Qed.

Lemma uint_chars d : all_chars is_int_char (NilEmpty.string_of_uint d) = true.
Proof. induction d; cbn [NilEmpty.string_of_uint all_chars]; by rewrite ?IHd. Qed.

Lemma int_repr_chars z : all_chars is_int_char (int_repr z) = true.
Proof.
  unfold int_repr, NilZero.string_of_int, NilZero.string_of_uint.
  destruct (Z.to_int z) as [d|d]; destruct d; cbn [all_chars];
    rewrite ?uint_chars; done.
Qed.

Lemma int_repr_nonempty z : int_repr z ≠ "".
Proof.
  unfold int_repr, NilZero.string_of_int, NilZero.string_of_uint.
  destruct (Z.to_int z) as [d|d]; destruct d; done.
Qed.

Lemma to_int_nonnil z : Z.to_int z ≠ Decimal.Pos Decimal.Nil
                        ∧ Z.to_int z ≠ Decimal.Neg Decimal.Nil.
Proof.
  destruct z as [|p|p]; cbn; split; try done;
    intros [= Hp]; by apply DecimalPos.Unsigned.to_uint_nonnil in Hp.
Qed.

Lemma int_repr_inj z1 z2 : int_repr z1 = int_repr z2 → z1 = z2.
Proof.
  intros Heq. apply DecimalZ.to_int_inj.
  destruct (to_int_nonnil z1), (to_int_nonnil z2).
  assert (Some (Z.to_int z1) = Some (Z.to_int z2)) as [= ?]; [|done].
  rewrite <- !NilZero.isi by done. unfold int_repr in Heq. by rewrite Heq.
Qed.

(* ---------- first characters ---------- *)
Lemma head_app s r : s ≠ "" → head (s +:+ r) = head s.
Proof. by destruct s. Qed.

Lemma num_head s :
  s ≠ "" → all_chars is_num_char s = true →
  ∃ c, head s = Some c ∧ head_kind c = Some KNum.
Proof.
  destruct s as [|c s]; [done|]. intros _ Hs. cbn [all_chars] in Hs.
  apply andb_true_iff in Hs as [Hc _]. exists c. split; [done|].
  unfold head_kind. by rewrite Hc.
Qed.

Section repr_facts.
Context `{FloatReprLaws}.

Lemma float_repr_nonempty f : float_repr f ≠ "".
Proof. intros Hf. pose proof (float_repr_not_int f) as Hn. by rewrite Hf in Hn. Qed.

Lemma repr_head v : ∃ c, head (repr v) = Some c ∧ head_kind c = Some (kind_of v).
Proof.
  destruct v as [|[]|z|f|s|l|d]; cbn [repr kind_of].
  - by exists "N"%char.
  - by exists "T"%char.
  - by exists "F"%char.
  - apply num_head; [apply int_repr_nonempty|].
    eapply all_chars_impl; [apply is_int_num_char|apply int_repr_chars].
  - apply num_head; [apply float_repr_nonempty|apply float_repr_chars].
  - unfold str_repr. cbn [head].
    destruct (choose_quote_cases s) as [-> | ->]; by eexists.
  - by exists "["%char.
  - by exists "{"%char.
Qed.

Lemma repr_nonempty v : repr v ≠ "".
Proof. destruct (repr_head v) as (c & Hc & _). by destruct (repr v). Qed.

Lemma repr_app_head v r :
  ∃ c, head (repr v +:+ r) = Some c ∧ head_kind c = Some (kind_of v).
Proof. rewrite head_app by apply repr_nonempty. apply repr_head. Qed.
End repr_facts.

(* ---------- containers ---------- *)
Lemma string_cons_inj c1 c2 s1 s2 :
  String c1 s1 = String c2 s2 → c1 = c2 ∧ s1 = s2.
Proof. by intros [= -> ->]. Qed.

Lemma join_repr_nil {A} (f : A → string) : join_repr f [] = "".
Proof. reflexivity. Qed.

Lemma join_repr_one {A} (f : A → string) x : join_repr f [x] = f x +:+ "".
Proof. reflexivity. Qed.

Lemma join_repr_more {A} (f : A → string) x y l :
  join_repr f (x :: y :: l) = f x +:+ ", " +:+ join_repr f (y :: l).
Proof. reflexivity. Qed.

Section join_unambiguous.
Context {A : Type} (f : A → string) (close : ascii).
Hypothesis close_stop : is_num_char close = false.
Hypothesis close_not_comma : close ≠ ","%char.
Hypothesis f_head : ∀ x r, ∃ c, head (f x +:+ r) = Some c ∧ c ≠ close.

Lemma join_not_closed x l r1 r2 :
  String close r1 ≠ join_repr f (x :: l) +:+ r2.
Proof.
  intros Heq.
  assert (∃ k, join_repr f (x :: l) +:+ r2 = f x +:+ k) as [k Hk].
  { destruct l; [rewrite join_repr_one|rewrite join_repr_more];
      rewrite string_app_assoc; by eexists. }
  rewrite Hk in Heq. destruct (f_head x k) as (c & Hc & Hne).
  rewrite <- Heq in Hc. cbn in Hc. congruence.
Qed.

Lemma join_unamb l1 l2 r1 r2 :
  Forall (item_unamb f) l1 →
  join_repr f l1 +:+ String close r1 = join_repr f l2 +:+ String close r2 →
  l1 = l2 ∧ r1 = r2.
Proof.
  intros Hall. revert l2.
  induction Hall as [|x l1 Hx Hall IH]; intros l2 Heq.
  { destruct l2 as [|y l2].
    - rewrite !join_repr_nil, !app_empty_l in Heq. by simplify_eq.
    - rewrite join_repr_nil, app_empty_l in Heq. by apply join_not_closed in Heq. }
  destruct l2 as [|y l2].
  { rewrite join_repr_nil, app_empty_l in Heq. symmetry in Heq.
    by apply join_not_closed in Heq. }
  assert (Hstop_close : ∀ r, stop (String close r) = true).
  { intros r. cbn [stop]. by rewrite close_stop. }
  destruct l1 as [|x' l1], l2 as [|y' l2].
  - rewrite !join_repr_one, !string_app_assoc, !app_empty_l in Heq.
    apply Hx in Heq as [-> Heq]; [|done..]. by simplify_eq.
  - rewrite join_repr_one, join_repr_more, !string_app_assoc, !app_empty_l in Heq.
    apply Hx in Heq as [-> Heq]; [|done..].
    rewrite !app_cons in Heq. by simplify_eq.
  - rewrite join_repr_one, join_repr_more, !string_app_assoc, !app_empty_l in Heq.
    apply Hx in Heq as [-> Heq]; [|done..].
    rewrite !app_cons in Heq. by simplify_eq.
  - rewrite !join_repr_more, !string_app_assoc in Heq.
    apply Hx in Heq as [-> Heq]; [|done..].
    rewrite !app_cons, !app_empty_l in Heq. injection Heq as Heq.
    destruct (IH (y' :: l2) Heq) as [Hl ->]. by rewrite Hl.
Qed.
End join_unambiguous.

Lemma pyval_nested_ind `{FloatRepr} (P : pyval → Prop) :
  P PyNone → (∀ b, P (PyBool b)) → (∀ z, P (PyInt z)) →
  (∀ f, P (PyFloat f)) → (∀ s, P (PyStr s)) →
  (∀ l, Forall P l → P (PyList l)) →
  (∀ d, Forall (λ kv, P kv.2) d → P (PyDict d)) →
  ∀ v, P v.
Proof.
  intros HN HB HI HF HS HL HD. fix IH 1.
  intros [|b|z|f|s|l|d];
    [exact HN|exact (HB b)|exact (HI z)|exact (HF f)|exact (HS s)| |].
  - apply HL. induction l as [|x l IHl]; constructor; [apply IH|apply IHl].
  - apply HD. induction d as [|[k x] d IHd]; constructor; [apply IH|apply IHd].
Qed.

Section repr_unambiguous.
Context `{FloatReprLaws}.

Lemma same_kind v1 v2 r1 r2 :
  repr v1 +:+ r1 = repr v2 +:+ r2 → kind_of v1 = kind_of v2.
Proof.
  intros Heq.
  destruct (repr_app_head v1 r1) as (c1 & Hc1 & Hk1).
  destruct (repr_app_head v2 r2) as (c2 & Hc2 & Hk2).
  rewrite Heq in Hc1. congruence.
Qed.

Lemma str_repr_head s r : ∃ c, head (str_repr s +:+ r) = Some c ∧ head_kind c = Some KStr.
Proof.
  unfold str_repr. cbn zeta. rewrite app_cons. cbn [head].
  destruct (choose_quote_cases s) as [-> | ->]; by eexists.
Qed.

Lemma dict_item_unamb kv :
  repr_unamb_at kv.2 → item_unamb dict_item_repr kv.
Proof.
  intros IH [k2 v2] r1 r2 Hr1 Hr2 Heq. destruct kv as [k1 v1].
  unfold dict_item_repr in Heq. cbn [fst snd] in *.
  rewrite !string_app_assoc in Heq.
  apply str_repr_unamb in Heq as [-> Heq].
  rewrite !app_cons, !app_empty_l in Heq.
  apply string_cons_inj in Heq as [_ Heq].
  apply string_cons_inj in Heq as [_ Heq].
  destruct (IH _ _ _ Hr1 Hr2 Heq) as [-> ->]. done.
Qed.

Lemma repr_unamb v1 : repr_unamb_at v1.
Proof.
  induction v1 as [|b1|z1|f1|s1|l1 IHl|d1 IHd] using pyval_nested_ind;
    intros v2 r1 r2 Hr1 Hr2 Heq;
    pose proof (same_kind _ _ _ _ Heq) as Hk;
    destruct v2 as [|b2|z2|f2|s2|l2|d2]; try discriminate Hk; clear Hk;
    cbn [repr] in Heq.
  - rewrite !app_cons, !app_empty_l in Heq. by simplify_eq.
  - destruct b1, b2; rewrite !app_cons, !app_empty_l in Heq; by simplify_eq.
  - apply token_unamb in Heq as [Heq ->]; [|try done..].
    + by apply int_repr_inj in Heq as ->.
    + eapply all_chars_impl; [apply is_int_num_char|apply int_repr_chars].
    + eapply all_chars_impl; [apply is_int_num_char|apply int_repr_chars].
  - apply token_unamb in Heq as [Heq ->]; [|try done..].
    + pose proof (int_repr_chars z1) as Hi. rewrite Heq in Hi.
      by rewrite float_repr_not_int in Hi.
    + eapply all_chars_impl; [apply is_int_num_char|apply int_repr_chars].
    + apply float_repr_chars.
  - apply token_unamb in Heq as [Heq ->]; [|try done..].
    + pose proof (int_repr_chars z2) as Hi. rewrite <- Heq in Hi.
      by rewrite float_repr_not_int in Hi.
    + apply float_repr_chars.
    + eapply all_chars_impl; [apply is_int_num_char|apply int_repr_chars].
  - apply token_unamb in Heq as [Heq ->]; [|try done..].
    + by apply float_repr_inj in Heq as ->.
    + apply float_repr_chars.
    + apply float_repr_chars.
  - by apply str_repr_unamb in Heq as [-> ->].
  - rewrite !app_cons, !app_empty_l, !string_app_assoc, !app_cons, !app_empty_l in Heq.
    simplify_eq.
    match goal with Hj : _ +:+ _ = _ +:+ _ |- _ =>
      apply (join_unamb repr "]") in Hj as [-> ->]; [done|done|done| |done] end.
    intros x r. destruct (repr_app_head x r) as (c & Hc & Hkc).
    exists c. split; [done|]. by intros ->.
  - rewrite !app_cons, !app_empty_l, !string_app_assoc, !app_cons, !app_empty_l in Heq.
    simplify_eq.
    match goal with Hj : _ +:+ _ = _ +:+ _ |- _ =>
      apply (join_unamb dict_item_repr "}") in Hj as [-> ->];
        [done|done|done| |] end.
    + intros [k x] r. unfold dict_item_repr. cbn [fst snd].
      rewrite string_app_assoc.
      destruct (str_repr_head k ((": " +:+ repr x) +:+ r)) as (c & Hc & Hkc).
      exists c. split; [done|]. by intros ->.
    + eapply Forall_impl; [exact IHd|]. intros kv Hkv.
      by apply dict_item_unamb.
Qed.

Lemma tuple_repr_unamb kv : item_unamb tuple_repr kv.
Proof.
  intros [k2 v2] r1 r2 Hr1 Hr2 Heq. destruct kv as [k1 v1].
  unfold tuple_repr in Heq. cbn [fst snd] in *.
  rewrite !app_cons, !app_empty_l, !string_app_assoc in Heq.
  apply string_cons_inj in Heq as [_ Heq].
  apply str_repr_unamb in Heq as [-> Heq].
  rewrite ?app_cons, ?app_empty_l in Heq.
  apply string_cons_inj in Heq as [_ Heq].
  apply string_cons_inj in Heq as [_ Heq].
  rewrite !string_app_assoc in Heq.
  apply (repr_unamb v1 v2) in Heq as [-> Heq]; [|done..].
  rewrite ?app_cons, ?app_empty_l in Heq.
  by apply string_cons_inj in Heq as [_ ->].
Qed.

Lemma list_of_tuples_inj (l1 l2 : pydict) :
  "[" +:+ join_repr tuple_repr l1 +:+ "]" = "[" +:+ join_repr tuple_repr l2 +:+ "]" →
  l1 = l2.
Proof.
  intros Heq. rewrite !app_cons, !app_empty_l in Heq.
  apply string_cons_inj in Heq as [_ Heq].
  apply (join_unamb tuple_repr "]") in Heq as [-> _]; [done|done|done| |].
  - intros [k x] r. exists "("%char. unfold tuple_repr. by rewrite app_cons.
  - apply Forall_forall. intros kv _. apply tuple_repr_unamb.
Qed.
End repr_unambiguous.

(* ---------- sorting ---------- *)
Section sorted_items.
Context `{FloatRepr}.

Global Instance item_le_trans : Transitive item_le.
Proof. intros x y z. unfold item_le. apply transitivity. Qed.

Global Instance item_le_total : Total item_le.
Proof. intros x y. unfold item_le. apply total, _. Qed.

Lemma NoDup_keys_eq (l : pydict) x y :
  NoDup l.*1 → x ∈ l → y ∈ l → x.1 = y.1 → x = y.
Proof.
  induction l as [|z l IH]; cbn [fmap list_fmap]; [by intros _ ?%elem_of_nil|].
  rewrite NoDup_cons. intros [Hz Hl] Hx Hy Hxy.
  apply elem_of_cons in Hx as [->|Hx]; apply elem_of_cons in Hy as [->|Hy].
  - done.
  - destruct Hz. rewrite Hxy. by apply list_elem_of_fmap_2.
  - destruct Hz. rewrite <- Hxy. by apply list_elem_of_fmap_2.
  - by apply IH.
Qed.

Lemma sorted_Permutation (d : pydict) : sorted d ≡ₚ d.
Proof. apply merge_sort_Permutation. Qed.

Lemma sorted_insertion_order (d1 d2 : pydict) :
  NoDup d1.*1 → d1 ≡ₚ d2 → sorted d1 = sorted d2.
Proof.
  intros Hnd Hperm.
  apply (StronglySorted_unique_strong item_le).
  - intros x y Hx Hy Hxy Hyx.
    apply (NoDup_keys_eq d1); [done| | |].
    + by rewrite <- (sorted_Permutation d1).
    + by rewrite Hperm, <- (sorted_Permutation d2).
    + unfold item_le in *. by apply (anti_symm String.le).
  - apply (StronglySorted_merge_sort item_le).
  - apply (StronglySorted_merge_sort item_le).
  - by rewrite !sorted_Permutation.
Qed.
End sorted_items.

Section canonical.
Context `{FloatReprLaws}.

(** C2 (as the code has it). Two payloads with pairwise distinct keys have
    the same canonical encoding exactly when they hold the same items, in
    whatever order the top-level keys were inserted: the insertion order of
    the top-level keys does not matter, and any change of a key or of a
    value (for a nested mapping: of its items or of their order) changes
    the bytes. *)
Theorem canonical_encoding_top_level_order (d1 d2 : pydict) :
  NoDup d1.*1 → NoDup d2.*1 →
  canonical_encoding d1 = canonical_encoding d2 ↔ d1 ≡ₚ d2.
Proof.
  intros Hnd1 Hnd2. unfold canonical_encoding, canonical_str. split.
  - intros Heq%encode_inj%list_of_tuples_inj.
    by rewrite <- (sorted_Permutation d1), Heq, sorted_Permutation.
  - intros Hperm. by rewrite (sorted_insertion_order d1 d2).
Qed.
End canonical.

(* ---------- an instance ---------- *)
Lemma length_app s t :
  String.length (s +:+ t) = (String.length s + String.length t)%nat.
Proof.
  induction s as [|c s IH]; [done|].
  rewrite app_cons. cbn [String.length]. by rewrite IH.
Qed.

Lemma append_inj_r s1 s2 t : s1 +:+ t = s2 +:+ t → s1 = s2.
Proof.
  revert s2. induction s1 as [|c s1 IH]; intros [|c2 s2] Heq.
  - done.
  - rewrite app_empty_l, app_cons in Heq.
    assert (String.length t = String.length (String c2 (s2 +:+ t))) as Hlen
      by by rewrite <- Heq.
    cbn [String.length] in Hlen. rewrite length_app in Hlen. lia.
  - rewrite app_empty_l, app_cons in Heq.
    assert (String.length (String c (s1 +:+ t)) = String.length t) as Hlen
      by by rewrite Heq.
    cbn [String.length] in Hlen. rewrite length_app in Hlen. lia.
  - rewrite !app_cons in Heq. apply string_cons_inj in Heq as [-> Heq].
    by rewrite (IH s2 Heq).
Qed.

Lemma all_chars_app p s t :
  all_chars p (s +:+ t) = all_chars p s && all_chars p t.
Proof.
  induction s as [|c s IH]; [done|].
  rewrite app_cons. cbn [all_chars]. by rewrite IH, andb_assoc.
Qed.

Global Instance integral_floats_laws : @FloatReprLaws integral_floats.
Proof.
  split; cbn [float_repr integral_floats pyfloat].
  - intros f g Heq%append_inj_r. by apply int_repr_inj.
  - intros f. rewrite all_chars_app.
    rewrite (all_chars_impl is_int_char is_num_char);
      [done|apply is_int_num_char|apply int_repr_chars].
  - intros f. rewrite all_chars_app. by rewrite andb_false_r.
Qed.

(** ** Examples *)

Example str_repr_plain : str_repr "humidity" = "'humidity'".
Proof. reflexivity. Qed.

Example str_repr_single_quote :
  str_repr "it's" = String dquote ("it's" +:+ String dquote "").
Proof. reflexivity. Qed.

Example str_repr_escapes :
  str_repr (String (ascii_of_N 10) "a\b") = "'\na\\b'".
Proof. reflexivity. Qed.

Example repr_nested :
  repr (PyDict [("a", PyList [PyNone; PyBool true; PyInt (-3)]);
                ("b", @PyFloat integral_floats 2)])
  = "{'a': [None, True, -3], 'b': 2.0}".
Proof. reflexivity. Qed.

Example sorted_by_key : (sorted payload_th).*1 = ["humidity"; "temperature"].
Proof. vm_compute. reflexivity. Qed.

Example canonical_str_example :
  canonical_str payload_th = "[('humidity', 60), ('temperature', 22.0)]".
Proof. vm_compute. reflexivity. Qed.

Lemma canonical_encoding_nested_order_differs :
  same_content (PyDict payload_ab) (PyDict payload_ba)
  ∧ canonical_encoding payload_ab ≠ canonical_encoding payload_ba.
Proof.
  split.
  - apply (same_dict _ _ payload_ba); [done|].
    constructor; [|constructor]. split; [done|]. cbn [snd].
    apply (same_dict _ _ [("a", PyInt 1); ("b", PyInt 2)]).
    + apply perm_swap.
    + repeat constructor.
  - intros Heq. vm_compute in Heq. discriminate Heq.
Qed.

Lemma canonical_encoding_top_level_order_witness :
  canonical_encoding payload_th = canonical_encoding payload_ht
  ↔ payload_th ≡ₚ payload_ht.
Proof.
  apply (canonical_encoding_top_level_order payload_th payload_ht).
  - apply (bool_decide_unpack _). vm_compute. exact I.
  - apply (bool_decide_unpack _). vm_compute. exact I.
Defined.

(* ================================================================== *)
(** * 9. Properties of the services and routes *)
(* ================================================================== *)

Ltac io_unfold :=
  unfold mbind, mret, io_bind, io_ret, try_except, lift, call, gets, modify,
    raise in *.

Section service_properties.
Context `{FloatRepr} `{!Externals} `{!BlockchainService}.

Lemma verify_signature_returns device_id data signature st :
  ∃ b, verify_signature device_id data signature st = (st, [], Ok b)
       ∧ (b = true ↔ signature_checks st device_id data signature).
Proof.
  unfold verify_signature, signature_checks. io_unfold. cbn -[Nat.ltb].
  destruct (DEVICE_PUBLIC_KEYS st !! device_id) as [pk|] eqn:Hpk.
  2:{ exists false. split; [done|]. split; [done|]. intros (?&?&?&?&?&?); done. }
  destruct (String.eqb pk "") eqn:Hnil; cbn -[Nat.ltb].
  { apply String.eqb_eq in Hnil as ->. exists false. split; [done|].
    split; [done|]. intros (?&?&?&?&?&Hlen&?). simplify_eq. cbn in Hlen. lia. }
  destruct (String.length pk <? 64)%nat eqn:Hlen; cbn.
  { apply Nat.ltb_lt in Hlen. exists false. split; [done|].
    split; [done|]. intros (?&?&?&?&?&?&?). simplify_eq. lia. }
  apply Nat.ltb_ge in Hlen.
  destruct (bytes_fromhex pk) as [kb|e1] eqn:Hkb; cbn.
  2:{ exists false. split; [done|]. split; [done|].
      intros (?&?&?&?&?&?&?&?&?&?). simplify_eq; congruence. }
  destruct (from_string kb) as [vk|e2] eqn:Hvk; cbn.
  2:{ exists false. split; [done|]. split; [done|].
      intros (?&?&?&?&?&?&?&?&?&?). simplify_eq; congruence. }
  destruct (b64decode signature) as [sb|e3] eqn:Hsb; cbn.
  2:{ exists false. split; [done|]. split; [done|].
      intros (?&?&?&?&?&?&?&?&?&?). simplify_eq; congruence. }
  destruct (verify vk sb (sha256 (canonical_encoding data))) as [b|e4] eqn:Hv; cbn.
  2:{ exists false. split; [done|]. split; [done|].
      intros (?&?&?&?&?&?&?&?&?&?). simplify_eq; congruence. }
  exists b. split; [done|]. split.
  - intros ->. exists pk, kb, vk, sb. done.
  - intros (?&?&?&?&?&?&?&?&?&?). simplify_eq; congruence.
Qed.

(** C5. [verify_signature] always returns a boolean, it never raises; the
    boolean is [True] exactly when the device has a registered key of at
    least 64 characters that decodes from hex to a valid secp256k1 key, the
    signature decodes from base64, and the ECDSA check of the decoded
    signature against the SHA-256 digest of the canonical encoding
    succeeds. In every other case (device absent, key too short or
    otherwise invalid, a decoding error, a malformed or wrong signature)
    the result is [False]. *)
Theorem verify_signature_never_raises device_id data signature st :
  ∃ b, (verify_signature device_id data signature st).2 = Ok b
    ∧ (signature_checks st device_id data signature → b = true)
    ∧ (DEVICE_PUBLIC_KEYS st !! device_id = None → b = false)
    ∧ (∀ pk, DEVICE_PUBLIC_KEYS st !! device_id = Some pk →
         ((String.length pk < 64)%nat
          ∨ (∃ e, bytes_fromhex pk = Raise e)
          ∨ (∃ kb e, bytes_fromhex pk = Ok kb ∧ from_string kb = Raise e)) →
         b = false)
    ∧ ((∃ e, b64decode signature = Raise e) → b = false)
    ∧ (∀ pk kb vk sb,
         DEVICE_PUBLIC_KEYS st !! device_id = Some pk →
         bytes_fromhex pk = Ok kb → from_string kb = Ok vk →
         b64decode signature = Ok sb →
         ((∃ e, verify vk sb (sha256 (canonical_encoding data)) = Raise e)
          ∨ verify vk sb (sha256 (canonical_encoding data)) = Ok false) →
         b = false).
Proof.
  destruct (verify_signature_returns device_id data signature st)
    as (b & Hrun & Hb).
  exists b. rewrite Hrun. split; [done|].
  assert (Hfalse : ¬ signature_checks st device_id data signature → b = false).
  { destruct b; [|done]. intros Hn. destruct Hn. by apply Hb. }
  split; [by apply Hb|].
  repeat split.
  - intros Hnone. apply Hfalse. intros (?&?&?&?&?&?). congruence.
  - intros pk Hpk Hbad. apply Hfalse.
    intros (pk'&kb&vk&sb&?&?&?&?&?&?). simplify_eq.
    destruct Hbad as [?|[[e ?]|(kb'&e&?&?)]]; [lia|congruence|congruence].
  - intros [e He]. apply Hfalse.
    intros (pk'&kb&vk&sb&?&?&?&?&?&?). congruence.
  - intros pk kb vk sb ? ? ? ? Hbad. apply Hfalse.
    intros (pk'&kb'&vk'&sb'&?&?&?&?&?&?). simplify_eq.
    destruct Hbad as [[e ?]|?]; congruence.
Qed.

(** C8. A call of [verify_signature] leaves the program state as it was:
    both module-level dictionaries are the same after the call, whatever
    the arguments and the outcome; and it makes no external call. *)
Theorem verify_signature_state_unchanged device_id data signature st :
  (verify_signature device_id data signature st).1.1 = st
  ∧ (verify_signature device_id data signature st).1.2 = [].
Proof.
  destruct (verify_signature_returns device_id data signature st)
    as (b & -> & _). done.
Qed.

(** ** The upload handler, stage by stage *)

Lemma upload_unregistered iot_data st :
  device_registry st !! device_id iot_data = None →
  upload_iot_data iot_data st
  = (st, [], Raise (HTTPException 401 "Device not registered")).
Proof.
  intros Hreg. unfold upload_iot_data. io_unfold. cbn.
  rewrite Hreg. rewrite bool_decide_eq_false_2; [done|].
  intros [? ?]; done.
Qed.

Lemma upload_bad_signature iot_data st :
  is_Some (device_registry st !! device_id iot_data) →
  (verify_signature (device_id iot_data) (data iot_data) (signature iot_data) st).2
    = Ok false →
  upload_iot_data iot_data st
  = (st, [], Raise (HTTPException 401 "Invalid signature or fake device")).
Proof.
  intros Hreg Hsig.
  destruct (verify_signature_returns (device_id iot_data) (data iot_data)
              (signature iot_data) st) as (b & Hrun & _).
  rewrite Hrun in Hsig. cbn in Hsig. simplify_eq.
  unfold upload_iot_data.
  unfold mbind at 1. unfold io_bind at 1. unfold gets at 1.
  rewrite bool_decide_eq_true_2; [|done]. cbn [negb].
  unfold mbind at 1. unfold io_bind at 1. rewrite Hrun. cbn [negb].
  reflexivity.
Qed.

Lemma upload_verified iot_data st :
  is_Some (device_registry st !! device_id iot_data) →
  (verify_signature (device_id iot_data) (data iot_data) (signature iot_data) st).2
    = Ok true →
  upload_iot_data iot_data st = store_and_anchor iot_data st.
Proof.
  intros Hreg Hsig.
  destruct (verify_signature_returns (device_id iot_data) (data iot_data)
              (signature iot_data) st) as (b & Hrun & _).
  rewrite Hrun in Hsig. cbn in Hsig. simplify_eq.
  unfold upload_iot_data, store_and_anchor.
  unfold mbind at 1. unfold io_bind at 1. unfold gets at 1.
  rewrite bool_decide_eq_true_2; [|done]. cbn [negb].
  unfold mbind at 1. unfold io_bind at 1. rewrite Hrun. cbn [negb].
  match goal with |- _ = ?m st => destruct (m st) as [[st2 tr2] r] end.
  reflexivity.
Qed.

Lemma IoTData_validate_ok body :
  String.prefix "IOT-" (device_id body) = true →
  IoTData_validate body = Ok body.
Proof.
  intros Hp. unfold IoTData_validate, validate_device_id. rewrite Hp.
  by destruct body.
Qed.

Lemma IoTData_validate_rejects body :
  String.prefix "IOT-" (device_id body) = false →
  IoTData_validate body = Raise (ValueError "device_id must start with IOT-").
Proof.
  intros Hp. unfold IoTData_validate, validate_device_id. by rewrite Hp.
Qed.

(** C6. An upload whose [device_id] is not in the device registry is
    rejected with 401 "Device not registered", one whose signature does not
    verify with 401 "Invalid signature or fake device"; in both cases no
    call to the content store or to the ledger node is made and the state
    is unchanged. The same holds at the endpoint, where a request rejected
    by input validation makes no call either. *)
Theorem upload_rejects_before_storage iot_data st :
  (device_registry st !! device_id iot_data = None →
     serve (upload_iot_data iot_data) st
     = (st, [], Error 401 "Device not registered"))
  ∧ (is_Some (device_registry st !! device_id iot_data) →
     (verify_signature (device_id iot_data) (data iot_data)
        (signature iot_data) st).2 = Ok false →
     serve (upload_iot_data iot_data) st
     = (st, [], Error 401 "Invalid signature or fake device"))
  ∧ (device_registry st !! device_id iot_data = None
     ∨ (verify_signature (device_id iot_data) (data iot_data)
          (signature iot_data) st).2 = Ok false →
     ∃ code detail,
       handle (POST_upload iot_data) st = (st, [], Error code detail)).
Proof.
  assert (Hunreg : device_registry st !! device_id iot_data = None →
     serve (upload_iot_data iot_data) st
     = (st, [], Error 401 "Device not registered")).
  { intros Hreg. unfold serve. by rewrite upload_unregistered. }
  assert (Hbadsig : is_Some (device_registry st !! device_id iot_data) →
     (verify_signature (device_id iot_data) (data iot_data)
        (signature iot_data) st).2 = Ok false →
     serve (upload_iot_data iot_data) st
     = (st, [], Error 401 "Invalid signature or fake device")).
  { intros Hreg Hsig. unfold serve. by rewrite upload_bad_signature. }
  split; [done|]. split; [done|].
  intros Hbad. cbn [handle].
  destruct (String.prefix "IOT-" (device_id iot_data)) eqn:Hp.
  - rewrite IoTData_validate_ok by done.
    destruct (device_registry st !! device_id iot_data) as [pk|] eqn:Hreg.
    + destruct Hbad as [?|Hsig]; [done|].
      eexists _, _. apply Hbadsig; [by eexists|done].
    + eexists _, _. by apply Hunreg.
  - rewrite IoTData_validate_rejects by done. by eexists _, _.
Qed.

(** ** Registration *)

Lemma register_device_ok req st :
  reg_device_id req ≠ "" → reg_public_key req ≠ "" →
  register_device req st
  = (registered req st, [], Ok [("message", "Device registered successfully")]).
Proof.
  intros Hid Hpk. unfold register_device.
  apply String.eqb_neq in Hid, Hpk. rewrite Hid, Hpk. reflexivity.
Qed.

Lemma register_device_invalid req st :
  reg_device_id req = "" ∨ reg_public_key req = "" →
  register_device req st
  = (st, [], Raise (HTTPException 400 "device_id and public_key are required")).
Proof.
  intros Hbad. unfold register_device.
  assert (String.eqb (reg_device_id req) "" || String.eqb (reg_public_key req) ""
          = true) as ->; [|done].
  apply orb_true_iff. by rewrite !String.eqb_eq.
Qed.

(** C7. With a non-empty [device_id] and a non-empty [public_key]
    registration always succeeds and stores the key under that id, in the
    route's [device_registry] and in the verifier's [DEVICE_PUBLIC_KEYS]
    alike, replacing whatever was stored before (the last write wins) and
    leaving every other id as it was in both; if either is empty it fails
    with a 400 error and both dictionaries are unchanged. *)
Theorem register_device_spec req st :
  (reg_device_id req ≠ "" → reg_public_key req ≠ "" →
     ∃ st', serve (register_device req) st
            = (st', [], Success [("message", "Device registered successfully")])
       ∧ device_registry st' !! reg_device_id req = Some (reg_public_key req)
       ∧ (∀ id, id ≠ reg_device_id req →
            device_registry st' !! id = device_registry st !! id)
       ∧ DEVICE_PUBLIC_KEYS st' !! reg_device_id req = Some (reg_public_key req)
       ∧ (∀ id, id ≠ reg_device_id req →
            DEVICE_PUBLIC_KEYS st' !! id = DEVICE_PUBLIC_KEYS st !! id)
       ∧ device_registry st'
         = <[reg_device_id req := reg_public_key req]> (device_registry st)
       ∧ DEVICE_PUBLIC_KEYS st'
         = <[reg_device_id req := reg_public_key req]> (DEVICE_PUBLIC_KEYS st))
  ∧ (reg_device_id req = "" ∨ reg_public_key req = "" →
     serve (register_device req) st
     = (st, [], Error 400 "device_id and public_key are required")).
Proof.
  split.
  - intros Hid Hpk. exists (registered req st). unfold serve.
    rewrite register_device_ok by done. split; [done|]. cbn.
    repeat split.
    + apply lookup_insert_eq.
    + intros id Hne. by apply lookup_insert_ne.
    + apply lookup_insert_eq.
    + intros id Hne. by apply lookup_insert_ne.
  - intros Hbad. unfold serve. by rewrite register_device_invalid.
Qed.

(** ** The registry invariant *)

(** A request either leaves the state alone or is a successful
    registration. *)
Lemma handle_state rq st :
  (handle rq st).1.1 = st
  ∨ ∃ req, rq = POST_register req ∧ reg_device_id req ≠ ""
           ∧ reg_public_key req ≠ "" ∧ (handle rq st).1.1 = registered req st.
Proof.
  destruct rq as [req|body]; cbn [handle].
  - destruct (decide (reg_device_id req = "")) as [Hid|Hid].
    { left. unfold serve. rewrite register_device_invalid by auto. done. }
    destruct (decide (reg_public_key req = "")) as [Hpk|Hpk].
    { left. unfold serve. rewrite register_device_invalid by auto. done. }
    right. exists req. unfold serve. rewrite register_device_ok by done. done.
  - left. destruct (IoTData_validate body) as [iot|e] eqn:Hv; [|done].
    unfold serve.
    destruct (device_registry st !! device_id iot) as [pk|] eqn:Hreg.
    2:{ by rewrite upload_unregistered. }
    destruct (verify_signature_returns (device_id iot) (data iot)
                (signature iot) st) as (b & Hrun & _).
    destruct b.
    2:{ rewrite upload_bad_signature; [done|by eexists|by rewrite Hrun]. }
    rewrite upload_verified; [|by eexists|by rewrite Hrun].
    unfold store_and_anchor, upload_to_ipfs, store_hash_on_chain,
      store_data_hash, execute_contract_function, get_device_address.
    io_unfold. cbn.
    repeat match goal with
           | |- context [match ?r with Ok _ => _ | Raise _ => _ end] =>
               destruct r; cbn
           end; done.
Qed.

Lemma handled_in_turn_in_sync st :
  handled_in_turn st → registries_in_sync st.
Proof.
  induction 1 as [|st rq _ [IHeq IHne]].
  - split; [done|]. intros id pk. cbn. by rewrite lookup_empty.
  - destruct (handle_state rq st) as [->|(req & _ & Hid & Hpk & ->)];
      [done|].
    split; cbn; [by rewrite IHeq|].
    intros id pk. destruct (decide (reg_device_id req = id)) as [<-|Hne].
    + rewrite lookup_insert_eq. congruence.
    + rewrite lookup_insert_ne by done. apply IHne.
Qed.

(** A registration handled with nothing in between is its first assignment
    followed by its second. *)
Lemma registered_two_writes req st :
  registered req st = write_DEVICE_PUBLIC_KEYS req (write_device_registry req st).
Proof. done. Qed.

Lemma handled_in_turn_reachable st :
  handled_in_turn st → reachable {| shared := st; in_flight := [] |}.
Proof.
  induction 1 as [|st rq _ IH]; [apply reachable_init|].
  eapply reachable_step; [apply IH|]. apply (step_request rq).
Qed.

(** While requests are handled in turn the two dictionaries are equal: an id
    passes the registration check of the upload endpoint exactly when the
    verifier finds a (non-empty) key for it, and that key is the registered
    one. *)
Lemma handled_in_turn_agree st :
  handled_in_turn st →
  device_registry st = DEVICE_PUBLIC_KEYS st
  ∧ (∀ id, is_Some (device_registry st !! id)
           ↔ ∃ pk, DEVICE_PUBLIC_KEYS st !! id = Some pk ∧ pk ≠ ""
                   ∧ device_registry st !! id = Some pk).
Proof.
  intros Hturn. destruct (handled_in_turn_in_sync st Hturn) as [Heq Hne].
  split; [done|]. intros id. split.
  - intros [pk Hpk]. exists pk. rewrite <- Heq. eauto.
  - intros (pk & _ & _ & Hpk). by eexists.
Qed.

(** Whatever the interleaving, the verifier never knows an id that the
    registration check does not: the first assignment of a registration
    comes before its second, and nothing removes an entry. *)
Lemma reachable_keys_registered s :
  reachable s →
  (∀ id, is_Some (DEVICE_PUBLIC_KEYS (shared s) !! id) →
         is_Some (device_registry (shared s) !! id))
  ∧ (∀ req, req ∈ in_flight s →
            is_Some (device_registry (shared s) !! reg_device_id req)).
Proof.
  induction 1 as [|s s' _ [IHk IHf] Hstep].
  - split.
    + intros id. cbn. rewrite lookup_empty. by intros [? ?].
    + intros req. cbn. by intros ?%elem_of_nil.
  - destruct Hstep as [rq s|req s Hid Hpk|req l1 l2 s Hfl]; cbn.
    + destruct (handle_state rq (shared s)) as [->|(req & _ & _ & _ & ->)];
        [done|].
      split.
      * intros id. cbn.
        destruct (decide (reg_device_id req = id)) as [<-|Hne].
        { by rewrite !lookup_insert_eq. }
        rewrite !lookup_insert_ne by done. apply IHk.
      * intros req' Hin. cbn.
        destruct (decide (reg_device_id req = reg_device_id req')) as [<-|Hne].
        { by rewrite lookup_insert_eq. }
        rewrite lookup_insert_ne by done. by apply IHf.
    + split.
      * intros id Hk.
        destruct (decide (reg_device_id req = id)) as [<-|Hne].
        { by rewrite lookup_insert_eq. }
        rewrite lookup_insert_ne by done. by apply IHk.
      * intros req' Hin.
        destruct (decide (reg_device_id req = reg_device_id req')) as [<-|Hne].
        { by rewrite lookup_insert_eq. }
        rewrite lookup_insert_ne by done.
        apply elem_of_cons in Hin as [Heq|Hin']; [by subst|]. by apply IHf.
    + split.
      * intros id.
        destruct (decide (reg_device_id req = id)) as [<-|Hne].
        { intros _. apply IHf. rewrite Hfl.
          rewrite elem_of_app, elem_of_cons. tauto. }
        rewrite lookup_insert_ne by done. apply IHk.
      * intros req' Hin'. apply IHf. rewrite Hfl.
        rewrite elem_of_app, elem_of_cons. rewrite elem_of_app in Hin'. tauto.
Qed.

(** C9. The two dictionaries do not always agree. Each registration makes
    two assignments, first to [device_registry] and then to
    [DEVICE_PUBLIC_KEYS], and another request can run between them. From any
    reachable state, two registrations of one id with different keys, the
    second starting and ending between the two assignments of the first,
    lead to a reachable state with the same registrations in flight as
    before in which [device_registry] holds the key of the second and
    [DEVICE_PUBLIC_KEYS] the key of the first. And between the two
    assignments of the registration of an id the verifier does not know, the
    id passes the registration check of the upload endpoint while the
    verifier has no key for it. *)
Theorem overlapping_registrations_disagree s id pkA pkB :
  reachable s →
  id ≠ "" → pkA ≠ "" → pkB ≠ "" → pkA ≠ pkB →
  (∃ s', reachable s'
     ∧ in_flight s' = in_flight s
     ∧ device_registry (shared s') !! id = Some pkB
     ∧ DEVICE_PUBLIC_KEYS (shared s') !! id = Some pkA
     ∧ device_registry (shared s') ≠ DEVICE_PUBLIC_KEYS (shared s'))
  ∧ (DEVICE_PUBLIC_KEYS (shared s) !! id = None →
     ∃ s', reachable s'
       ∧ is_Some (device_registry (shared s') !! id)
       ∧ DEVICE_PUBLIC_KEYS (shared s') !! id = None).
Proof.
  intros Hreach Hid HpkA HpkB Hne.
  set (reqA := {| reg_device_id := id; reg_public_key := pkA |}).
  set (reqB := {| reg_device_id := id; reg_public_key := pkB |}).
  set (s1 := {| shared := write_device_registry reqA (shared s);
                in_flight := reqA :: in_flight s |}).
  assert (reachable s1) as Hs1.
  { eapply reachable_step; [done|]. by apply (step_first_write reqA). }
  split.
  - set (s2 := {| shared := (handle (POST_register reqB) (shared s1)).1.1;
                  in_flight := in_flight s1 |}).
    assert (reachable s2) as Hs2.
    { eapply reachable_step; [done|]. apply (step_request (POST_register reqB)). }
    exists {| shared := write_DEVICE_PUBLIC_KEYS reqA (shared s2);
              in_flight := [] ++ in_flight s |}.
    split.
    { eapply reachable_step; [done|].
      by apply (step_second_write reqA [] (in_flight s) s2). }
    split; [done|].
    assert (shared s2 = registered reqB (shared s1)) as ->.
    { unfold s2. cbn [shared handle]. unfold serve.
      by rewrite register_device_ok. }
    cbn. rewrite !lookup_insert_eq. split; [done|]. split; [done|].
    intros Heq.
    assert (<[id:=pkB]> (<[id:=pkA]> (device_registry (shared s))) !! id
            = <[id:=pkA]> (<[id:=pkB]> (DEVICE_PUBLIC_KEYS (shared s))) !! id)
      as Hl by by rewrite Heq.
    rewrite !lookup_insert_eq in Hl. congruence.
  - intros Hfresh. exists s1. split; [done|]. cbn.
    by rewrite lookup_insert_eq.
Qed.

(** C10. An upload whose [device_id] does not start with "IOT-" is
    rejected by the model validator (422) in every state, before the
    handler runs: no call is made and the state is unchanged, whatever the
    data and the signature. Registration has no such check: the same id,
    when non-empty, registers successfully. So a device registered under
    such an id can never upload. *)
Theorem upload_requires_iot_prefix id :
  String.prefix "IOT-" id = false →
  (∀ d sig st,
     handle (POST_upload {| device_id := id; data := d; signature := sig |}) st
     = (st, [], Error 422 "device_id must start with IOT-"))
  ∧ (∀ pk st, id ≠ "" → pk ≠ "" →
     ∃ st', handle (POST_register {| reg_device_id := id; reg_public_key := pk |}) st
            = (st', [], Success [("message", "Device registered successfully")])
       ∧ device_registry st' !! id = Some pk
       ∧ ∀ d sig,
           handle (POST_upload {| device_id := id; data := d; signature := sig |}) st'
           = (st', [], Error 422 "device_id must start with IOT-")).
Proof.
  intros Hp.
  assert (Hup : ∀ d sig st,
     handle (POST_upload {| device_id := id; data := d; signature := sig |}) st
     = (st, [], Error 422 "device_id must start with IOT-")).
  { intros d sig st. cbn [handle].
    rewrite IoTData_validate_rejects by done. done. }
  split; [done|].
  intros pk st Hid Hpk.
  exists (registered {| reg_device_id := id; reg_public_key := pk |} st).
  cbn [handle]. unfold serve. rewrite register_device_ok by done.
  split; [done|]. split; [apply lookup_insert_eq|]. intros d sig. apply Hup.
Qed.

(** ** The anchoring stage *)

Lemma execute_contract_function_receipt function_name args raw txh receipt st :
  anchor_attempt function_name args raw txh receipt →
  execute_contract_function function_name args st
  = (st, anchor_trace raw txh,
     Ok (Some {| tx_hash := hex txh;
                 status := receipt_status receipt;
                 block_number := receipt_blockNumber receipt |})).
Proof.
  intros (fn & nonce & price & tx & Hfn & Hn & Hp & Htx & Hraw & Hsend & Hrc).
  unfold execute_contract_function. io_unfold. cbn.
  rewrite Hfn, Hn, Hp. cbn. rewrite Htx. cbn. rewrite Hraw. cbn.
  rewrite Hsend, Hrc. reflexivity.
Qed.

Lemma execute_contract_function_inv function_name args st st' tr o :
  execute_contract_function function_name args st = (st', tr, o) →
  st' = st
  ∧ (o = Ok None
     ∨ ∃ raw txh receipt,
         anchor_attempt function_name args raw txh receipt
         ∧ tr = anchor_trace raw txh
         ∧ o = Ok (Some {| tx_hash := hex txh;
                           status := receipt_status receipt;
                           block_number := receipt_blockNumber receipt |})).
Proof.
  unfold execute_contract_function, anchor_attempt. io_unfold. cbn.
  destruct (contract_functions function_name args) as [fn|] eqn:Hfn; cbn;
    [|intros; simplify_eq; auto].
  destruct (get_transaction_count (account_address config)) as [nonce|] eqn:Hn;
    cbn; [|intros; simplify_eq; auto].
  destruct gas_price as [price|] eqn:Hp; cbn; [|intros; simplify_eq; auto].
  destruct (build_transaction _ _) as [tx|] eqn:Htx; cbn;
    [|intros; simplify_eq; auto].
  destruct (sign_transaction tx _) as [raw|] eqn:Hraw; cbn;
    [|intros; simplify_eq; auto].
  destruct (send_raw_transaction raw) as [txh|] eqn:Hsend; cbn;
    [|intros; simplify_eq; auto].
  destruct (wait_for_transaction_receipt txh 120) as [rc|] eqn:Hrc; cbn;
    [|intros; simplify_eq; auto].
  intros. simplify_eq. split; [done|]. right.
  exists raw, txh, rc. split; [|done]. exists fn, nonce, price, tx. done.
Qed.

Lemma get_device_address_inv device_id st st' tr r :
  get_device_address device_id st = (st', tr, r) →
  st' = st ∧ tr = []
  ∧ (r = to_checksum_address device_id
     ∨ r = to_checksum_address (account_address config)).
Proof.
  unfold get_device_address. io_unfold.
  destruct (to_checksum_address device_id) as [a|e]; intros; simplify_eq; auto.
Qed.

Lemma store_hash_on_chain_receipt device_id cid data data_type addr raw txh
    receipt st :
  (get_device_address device_id st).2 = Ok addr →
  anchor_attempt "storeDataHash" (anchor_args cid data_type addr data)
    raw txh receipt →
  store_hash_on_chain device_id cid data data_type st
  = (st, anchor_trace raw txh, Ok (hex txh)).
Proof.
  intros Haddr Hrun. unfold store_hash_on_chain, store_data_hash.
  destruct (get_device_address device_id st) as [[st1 tr1] r1] eqn:Hg.
  destruct (get_device_address_inv _ _ _ _ _ Hg) as (-> & -> & _).
  cbn in Haddr. subst r1.
  unfold mbind at 1. unfold io_bind at 1. rewrite Hg.
  unfold mbind at 1. unfold io_bind at 1.
  unfold mbind at 1. unfold io_bind at 1.
  fold (anchor_args cid data_type addr data).
  rewrite (execute_contract_function_receipt _ _ _ _ _ _ Hrun).
  reflexivity.
Qed.

Lemma store_hash_on_chain_inv device_id cid data data_type st st' tr txh_hex :
  store_hash_on_chain device_id cid data data_type st = (st', tr, Ok txh_hex) →
  st' = st
  ∧ ∃ addr raw txh receipt,
      (get_device_address device_id st).2 = Ok addr
      ∧ anchor_attempt "storeDataHash" (anchor_args cid data_type addr data)
          raw txh receipt
      ∧ tr = anchor_trace raw txh
      ∧ txh_hex = hex txh.
Proof.
  unfold store_hash_on_chain, store_data_hash.
  destruct (get_device_address device_id st) as [[st1 tr1] r1] eqn:Hg.
  destruct (get_device_address_inv _ _ _ _ _ Hg) as (-> & -> & _).
  unfold mbind at 1. unfold io_bind at 1. rewrite Hg.
  destruct r1 as [addr|e]; [|done].
  unfold mbind at 1. unfold io_bind at 1.
  unfold mbind at 1. unfold io_bind at 1.
  fold (anchor_args cid data_type addr data).
  destruct (execute_contract_function _ _ st) as [[st2 tr2] o] eqn:Hx.
  destruct (execute_contract_function_inv _ _ _ _ _ _ Hx)
    as (-> & [->|(raw & txh & rc & Hrun & -> & ->)]).
  - cbn. intros; simplify_eq.
  - cbn. intros; simplify_eq. split; [done|].
    exists addr, raw, txh, rc. done.
Qed.

(** An attempt that ends in an exception (a timeout of the receipt wait, a
    connection or signing failure) comes back as [None]; the cause is only
    logged, and the caller reports the generic failure. *)
Lemma store_hash_on_chain_failure device_id cid data data_type addr tr st :
  (get_device_address device_id st).2 = Ok addr →
  execute_contract_function "storeDataHash"
    (anchor_args cid data_type addr data) st = (st, tr, Ok None) →
  store_hash_on_chain device_id cid data data_type st
  = (st, tr, Raise (Exception "Blockchain transaction failed")).
Proof.
  intros Haddr Hrun. unfold store_hash_on_chain, store_data_hash.
  destruct (get_device_address device_id st) as [[st1 tr1] r1] eqn:Hg.
  destruct (get_device_address_inv _ _ _ _ _ Hg) as (-> & -> & _).
  cbn in Haddr. subst r1.
  unfold mbind at 1. unfold io_bind at 1. rewrite Hg.
  unfold mbind at 1. unfold io_bind at 1.
  unfold mbind at 1. unfold io_bind at 1.
  fold (anchor_args cid data_type addr data). rewrite Hrun.
  cbn. by rewrite !app_nil_r.
Qed.

Lemma execute_contract_function_timeout function_name args fn nonce price tx raw
    txh e st :
  contract_functions function_name args = Ok fn →
  get_transaction_count (account_address config) = Ok nonce →
  gas_price = Ok price →
  build_transaction fn {| tx_from := account_address config;
                          tx_nonce := nonce;
                          tx_gas := 2000000;
                          tx_gasPrice := price |} = Ok tx →
  sign_transaction tx (private_key config) = Ok raw →
  send_raw_transaction raw = Ok txh →
  wait_for_transaction_receipt txh 120 = Raise e →
  execute_contract_function function_name args st
  = (st, anchor_trace raw txh, Ok None).
Proof.
  intros Hfn Hn Hp Htx Hraw Hsend Hrc.
  unfold execute_contract_function. io_unfold. cbn.
  rewrite Hfn, Hn, Hp. cbn. rewrite Htx. cbn. rewrite Hraw. cbn.
  rewrite Hsend, Hrc. reflexivity.
Qed.

(** C1 (what the code does). An anchor attempt whose receipt carries the
    failure status 0 (the transaction was reverted) is not told apart from a
    successful one: [execute_contract_function] returns the record with
    [status = 0], [store_hash_on_chain] returns the transaction hash, and
    the upload of a registered device with a valid signature answers
    "Upload successful". *)
Theorem reverted_receipt_reported_as_success iot_data json_str cid addr raw txh
    receipt st :
  is_Some (device_registry st !! device_id iot_data) →
  (verify_signature (device_id iot_data) (data iot_data)
     (signature iot_data) st).2 = Ok true →
  json_dumps (data iot_data) = Ok json_str →
  add_bytes (encode json_str) = Ok cid →
  (get_device_address (device_id iot_data) st).2 = Ok addr →
  anchor_attempt "storeDataHash" (anchor_args cid "sensor" addr (data iot_data))
    raw txh receipt →
  receipt_status receipt = 0 →
  execute_contract_function "storeDataHash"
    (anchor_args cid "sensor" addr (data iot_data)) st
  = (st, anchor_trace raw txh,
     Ok (Some {| tx_hash := hex txh; status := 0;
                 block_number := receipt_blockNumber receipt |}))
  ∧ serve (upload_iot_data iot_data) st
    = (st, IpfsAddBytes (encode json_str) :: anchor_trace raw txh,
       Success [("message", "Upload successful");
                ("device_id", device_id iot_data);
                ("ipfs_cid", cid);
                ("tx_hash", hex txh)]).
Proof.
  intros Hreg Hsig Hjson Hadd Haddr Hrun Hstatus. split.
  - rewrite (execute_contract_function_receipt _ _ _ _ _ _ Hrun).
    by rewrite Hstatus.
  - unfold serve. rewrite upload_verified by done.
    unfold store_and_anchor, upload_to_ipfs.
    unfold mbind at 1. unfold io_bind at 1.
    unfold try_except at 1. unfold mbind at 1. unfold io_bind at 1.
    unfold lift at 1. rewrite Hjson.
    unfold mbind at 1. unfold io_bind at 1. unfold call at 1. rewrite Hadd.
    cbn [mret io_ret].
    unfold mbind at 1. unfold io_bind at 1. unfold try_except at 1.
    rewrite (store_hash_on_chain_receipt _ _ _ _ _ _ _ _ _ Haddr Hrun).
    reflexivity.
Qed.

(** C4. When an upload succeeds, exactly one content-store call and one
    ledger submission were made: the bytes given to the content store are
    the JSON text of the request's [data], and the transaction submitted is
    the signed [storeDataHash] call whose fourth argument is the SHA-256
    digest of the canonical encoding of that same [data]; nothing is read
    back from storage in between. *)
Theorem anchored_hash_is_hash_of_uploaded_payload iot_data st st' tr body :
  upload_iot_data iot_data st = (st', tr, Ok body) →
  ∃ json_str cid addr raw txh receipt,
    json_dumps (data iot_data) = Ok json_str
    ∧ add_bytes (encode json_str) = Ok cid
    ∧ anchor_attempt "storeDataHash"
        [AbiString cid; AbiString "sensor"; AbiAddress addr;
         AbiBytes (sha256 (canonical_encoding (data iot_data)))]
        raw txh receipt
    ∧ tr = [IpfsAddBytes (encode json_str);
            EthGetTransactionCount (account_address config); EthGasPrice;
            EthSendRawTransaction raw; EthWaitForTransactionReceipt txh 120]
    ∧ body = [("message", "Upload successful");
              ("device_id", device_id iot_data);
              ("ipfs_cid", cid);
              ("tx_hash", hex txh)].
Proof.
  intros Hup.
  destruct (device_registry st !! device_id iot_data) as [pk|] eqn:Hreg.
  2:{ rewrite upload_unregistered in Hup by done. simplify_eq. }
  destruct (verify_signature_returns (device_id iot_data) (data iot_data)
              (signature iot_data) st) as (b & Hrun & _).
  destruct b.
  2:{ rewrite upload_bad_signature in Hup; [simplify_eq|by eexists|by rewrite Hrun]. }
  rewrite upload_verified in Hup; [|by eexists|by rewrite Hrun].
  revert Hup. unfold store_and_anchor, upload_to_ipfs.
  unfold mbind at 1. unfold io_bind at 1.
  unfold try_except at 1. unfold mbind at 1. unfold io_bind at 1.
  unfold lift at 1.
  destruct (json_dumps (data iot_data)) as [json_str|e] eqn:Hjson; [|done].
  unfold mbind at 1. unfold io_bind at 1. unfold call at 1.
  destruct (add_bytes (encode json_str)) as [cid|e] eqn:Hadd; [|done].
  cbn [mret io_ret].
  unfold mbind at 1. unfold io_bind at 1. unfold try_except at 1.
  destruct (store_hash_on_chain _ _ _ _ st) as [[st2 tr2] [txh_hex|e]] eqn:Hs;
    [|done].
  destruct (store_hash_on_chain_inv _ _ _ _ _ _ _ _ Hs)
    as (-> & addr & raw & txh & rc & Haddr & Hattempt & -> & ->).
  cbn. intros; simplify_eq.
  exists json_str, cid, addr, raw, txh, rc. done.
Qed.
End service_properties.

(* ================================================================== *)
(** * 10. The theorems at concrete inputs *)
(* ================================================================== *)

Section reverted_example.
Local Existing Instance integral_floats.
Local Existing Instance demo_service.
Local Existing Instance reverting_node.

(** C1 at a concrete input: the node answers with a receipt of status 0 and
    the upload is answered "Upload successful". *)
Lemma reverted_receipt_reported_as_success_witness :
  execute_contract_function "storeDataHash"
    (anchor_args "QmExampleCid" "sensor" "0xACC0" demo_data) demo_state
  = (demo_state, anchor_trace demo_raw demo_txh,
     Ok (Some {| tx_hash := "0xtxhash"; status := 0; block_number := 12 |}))
  ∧ serve (upload_iot_data demo_upload) demo_state
    = (demo_state, IpfsAddBytes (encode demo_json) :: anchor_trace demo_raw demo_txh,
       Success [("message", "Upload successful");
                ("device_id", "IOT-AB12CD34");
                ("ipfs_cid", "QmExampleCid");
                ("tx_hash", "0xtxhash")]).
Proof.
  refine (reverted_receipt_reported_as_success demo_upload demo_json
            "QmExampleCid" "0xACC0" demo_raw demo_txh
            {| receipt_status := 0; receipt_blockNumber := 12 |} demo_state
            _ _ _ _ _ _ _).
  - eexists. vm_compute. reflexivity.
  - vm_compute. reflexivity.
  - reflexivity.
  - reflexivity.
  - vm_compute. reflexivity.
  - eexists _, _, _, _. repeat split; reflexivity.
  - reflexivity.
Defined.
End reverted_example.

Section accepted_example.
Local Existing Instance integral_floats.
Local Existing Instance demo_service.
Local Existing Instance accepting_node.

(** C4 at a concrete input: a successful upload against the accepting
    node. *)
Lemma anchored_hash_is_hash_of_uploaded_payload_witness :
  ∃ json_str cid addr raw txh receipt,
    json_dumps (data demo_upload) = Ok json_str
    ∧ add_bytes (encode json_str) = Ok cid
    ∧ anchor_attempt "storeDataHash"
        [AbiString cid; AbiString "sensor"; AbiAddress addr;
         AbiBytes (sha256 (canonical_encoding (data demo_upload)))]
        raw txh receipt
    ∧ IpfsAddBytes (encode demo_json) :: anchor_trace demo_raw demo_txh
      = [IpfsAddBytes (encode json_str);
         EthGetTransactionCount (account_address config); EthGasPrice;
         EthSendRawTransaction raw; EthWaitForTransactionReceipt txh 120]
    ∧ [("message", "Upload successful");
       ("device_id", "IOT-AB12CD34");
       ("ipfs_cid", "QmExampleCid");
       ("tx_hash", "0xtxhash")]
      = [("message", "Upload successful");
         ("device_id", device_id demo_upload);
         ("ipfs_cid", cid);
         ("tx_hash", hex txh)].
Proof.
  refine (anchored_hash_is_hash_of_uploaded_payload demo_upload demo_state
            demo_state _ _ _).
  vm_compute. reflexivity.
Defined.

(** C9 at a concrete input: two registrations of "IOT-AB12CD34" that
    overlap on a server just started. *)
Lemma overlapping_registrations_disagree_witness :
  (∃ s', reachable s'
     ∧ in_flight s' = []
     ∧ device_registry (shared s') !! "IOT-AB12CD34" = Some demo_other_key
     ∧ DEVICE_PUBLIC_KEYS (shared s') !! "IOT-AB12CD34" = Some demo_public_key
     ∧ device_registry (shared s') ≠ DEVICE_PUBLIC_KEYS (shared s'))
  ∧ (DEVICE_PUBLIC_KEYS (shared initial_server) !! "IOT-AB12CD34" = None →
     ∃ s', reachable s'
       ∧ is_Some (device_registry (shared s') !! "IOT-AB12CD34")
       ∧ DEVICE_PUBLIC_KEYS (shared s') !! "IOT-AB12CD34" = None).
Proof.
  refine (overlapping_registrations_disagree initial_server "IOT-AB12CD34"
            demo_public_key demo_other_key _ _ _ _ _).
  - apply reachable_init.
  - discriminate.
  - discriminate.
  - discriminate.
  - discriminate.
Defined.

(** C10 at a concrete input: the id "sensor-7" registers, and no upload
    under that id gets past validation. *)
Lemma upload_requires_iot_prefix_witness :
  String.prefix "IOT-" "sensor-7" = false
  ∧ ∃ st',
      handle (POST_register {| reg_device_id := "sensor-7";
                               reg_public_key := demo_public_key |}) initial_state
      = (st', [], Success [("message", "Device registered successfully")])
      ∧ device_registry st' !! "sensor-7" = Some demo_public_key
      ∧ ∀ d sig,
          handle (POST_upload {| device_id := "sensor-7"; data := d;
                                 signature := sig |}) st'
          = (st', [], Error 422 "device_id must start with IOT-").
Proof.
  split; [reflexivity|].
  apply (proj2 (upload_requires_iot_prefix "sensor-7" eq_refl)
           demo_public_key initial_state); discriminate.
Defined.
End accepted_example.

(* ================================================================== *)
(** * 11. Further properties of the upload pipeline *)
(* ================================================================== *)

Section pipeline_properties.
Context `{FloatRepr} `{!Externals} `{!BlockchainService}.

(** The node calls of one [execute_contract_function], however far it gets. *)
Lemma execute_contract_function_cases function_name args st :
  ∃ tr o raw txh,
    execute_contract_function function_name args st = (st, tr, Ok o)
    ∧ tr `prefix_of` anchor_trace raw txh
    ∧ (o = None
       ∨ ∃ receipt,
           anchor_attempt function_name args raw txh receipt
           ∧ tr = anchor_trace raw txh
           ∧ o = Some {| tx_hash := hex txh;
                         status := receipt_status receipt;
                         block_number := receipt_blockNumber receipt |}).
Proof.
  unfold execute_contract_function, anchor_attempt, anchor_trace. io_unfold. cbn.
  destruct (contract_functions function_name args) as [fn|] eqn:Hfn; cbn.
  2:{ exists [], None, [], []. split; [done|]. split; [apply prefix_nil|by left]. }
  destruct (get_transaction_count (account_address config)) as [nonce|] eqn:Hn; cbn.
  2:{ eexists _, None, [], []. split; [done|]. split; [|by left].
      by eexists [_; _; _]. }
  destruct gas_price as [price|] eqn:Hp; cbn.
  2:{ eexists _, None, [], []. split; [done|]. split; [|by left].
      by eexists [_; _]. }
  destruct (build_transaction _ _) as [tx|] eqn:Htx; cbn.
  2:{ eexists _, None, [], []. split; [done|]. split; [|by left].
      by eexists [_; _]. }
  destruct (sign_transaction tx _) as [raw|] eqn:Hraw; cbn.
  2:{ eexists _, None, [], []. split; [done|]. split; [|by left].
      by eexists [_; _]. }
  destruct (send_raw_transaction raw) as [txh|] eqn:Hsend; cbn.
  2:{ eexists _, None, raw, []. split; [done|]. split; [|by left].
      by eexists [_]. }
  destruct (wait_for_transaction_receipt txh 120) as [rc|] eqn:Hrc; cbn.
  2:{ eexists _, None, raw, txh. split; [done|]. split; [|by left].
      by eexists []. }
  eexists _, _, raw, txh. split; [done|]. split; [by eexists []|]. right.
  exists rc. split; [|done]. exists fn, nonce, price, tx. done.
Qed.

(** X4. [execute_contract_function] never raises and leaves the state alone;
    its calls to the node are always an initial part of one fixed sequence
    (nonce read, gas price, one submission, one receipt wait), so a call
    submits at most one transaction and never resubmits; and it returns a
    record only when the whole sequence ran. *)
Theorem execute_contract_function_single_attempt function_name args st :
  ∃ tr o raw txh,
    execute_contract_function function_name args st = (st, tr, Ok o)
    ∧ tr `prefix_of` anchor_trace raw txh
    ∧ (is_Some o → tr = anchor_trace raw txh).
Proof.
  destruct (execute_contract_function_cases function_name args st)
    as (tr & o & raw & txh & Hrun & Hpre & Hcase).
  exists tr, o, raw, txh. split; [done|]. split; [done|].
  intros [r ->]. destruct Hcase as [?|(rc & _ & -> & _)]; done.
Qed.

(** The device address is the checksum form of the id when the id is an
    address, of the service account otherwise. *)
Lemma get_device_address_eq device_id st :
  get_device_address device_id st
  = (st, [],
     match to_checksum_address device_id with
     | Ok a => Ok a
     | Raise _ => to_checksum_address (account_address config)
     end).
Proof.
  unfold get_device_address. io_unfold.
  destruct (to_checksum_address device_id); [done|].
  by destruct (to_checksum_address (account_address config)).
Qed.

Lemma store_hash_on_chain_cases device_id cid data data_type st :
  ∃ tr r, store_hash_on_chain device_id cid data data_type st = (st, tr, r)
    ∧ ((∃ e, (get_device_address device_id st).2 = Raise e
             ∧ tr = [] ∧ r = Raise e)
       ∨ (∃ addr,
            (get_device_address device_id st).2 = Ok addr
            ∧ execute_contract_function "storeDataHash"
                (anchor_args cid data_type addr data) st = (st, tr, Ok None)
            ∧ r = Raise (Exception "Blockchain transaction failed"))
       ∨ (∃ addr raw txh receipt,
            (get_device_address device_id st).2 = Ok addr
            ∧ anchor_attempt "storeDataHash"
                (anchor_args cid data_type addr data) raw txh receipt
            ∧ tr = anchor_trace raw txh
            ∧ r = Ok (hex txh))).
Proof.
  unfold store_hash_on_chain, store_data_hash.
  rewrite (get_device_address_eq device_id st). cbn [snd].
  unfold mbind at 1. unfold io_bind at 1.
  rewrite (get_device_address_eq device_id st).
  destruct (match to_checksum_address device_id with
            | Ok a => Ok a
            | Raise _ => to_checksum_address (account_address config)
            end) as [addr|e].
  2:{ eexists _, _. split; [done|]. left. by exists e. }
  unfold mbind at 1. unfold io_bind at 1.
  unfold mbind at 1. unfold io_bind at 1.
  fold (anchor_args cid data_type addr data).
  destruct (execute_contract_function_cases "storeDataHash"
              (anchor_args cid data_type addr data) st)
    as (tr & o & raw & txh & Hrun & _ & [->|(rc & Hatt & -> & ->)]).
  - rewrite Hrun. cbn. rewrite !app_nil_r. eexists _, _. split; [done|].
    right. left. exists addr. done.
  - rewrite Hrun. cbn. eexists _, _. split; [done|].
    right. right. exists addr, raw, txh, rc. done.
Qed.

(** The three ways the storage and anchoring stages can end. *)
Lemma store_and_anchor_cases iot_data st :
  ∃ tr r, store_and_anchor iot_data st = (st, tr, r)
    ∧ ((∃ e, ((json_dumps (data iot_data) = Raise e ∧ tr = [])
              ∨ (∃ json_str, json_dumps (data iot_data) = Ok json_str
                   ∧ add_bytes (encode json_str) = Raise e
                   ∧ tr = [IpfsAddBytes (encode json_str)]))
             ∧ r = Raise (HTTPException 500 ("IPFS upload failed: " +:+ str_exn e)))
       ∨ (∃ json_str cid tr2 e,
            json_dumps (data iot_data) = Ok json_str
            ∧ add_bytes (encode json_str) = Ok cid
            ∧ store_hash_on_chain (device_id iot_data) cid (data iot_data)
                "sensor" st = (st, tr2, Raise e)
            ∧ tr = IpfsAddBytes (encode json_str) :: tr2
            ∧ r = Raise (HTTPException 500
                           ("Blockchain write failed: " +:+ str_exn e)))
       ∨ (∃ json_str cid tr2 txh_hex,
            json_dumps (data iot_data) = Ok json_str
            ∧ add_bytes (encode json_str) = Ok cid
            ∧ store_hash_on_chain (device_id iot_data) cid (data iot_data)
                "sensor" st = (st, tr2, Ok txh_hex)
            ∧ tr = IpfsAddBytes (encode json_str) :: tr2
            ∧ r = Ok [("message", "Upload successful");
                      ("device_id", device_id iot_data);
                      ("ipfs_cid", cid);
                      ("tx_hash", txh_hex)])).
Proof.
  unfold store_and_anchor, upload_to_ipfs.
  unfold mbind at 1. unfold io_bind at 1.
  unfold try_except at 1. unfold mbind at 1. unfold io_bind at 1.
  unfold lift at 1.
  destruct (json_dumps (data iot_data)) as [json_str|e] eqn:Hjson.
  2:{ cbn. eexists _, _. split; [done|]. left. exists e. split; [by left|done]. }
  unfold mbind at 1. unfold io_bind at 1. unfold call at 1.
  destruct (add_bytes (encode json_str)) as [cid|e] eqn:Hadd.
  2:{ cbn. eexists _, _. split; [done|]. left. exists e.
      split; [right; by exists json_str|done]. }
  cbn [mret io_ret].
  unfold mbind at 1. unfold io_bind at 1. unfold try_except at 1.
  destruct (store_hash_on_chain_cases (device_id iot_data) cid (data iot_data)
              "sensor" st) as (tr2 & r2 & Hs & _).
  rewrite Hs. destruct r2 as [txh_hex|e].
  - cbn. rewrite !app_nil_r. eexists _, _. split; [done|]. right. right.
    exists json_str, cid, tr2, txh_hex. done.
  - cbn. rewrite !app_nil_r. eexists _, _. split; [done|]. right. left.
    exists json_str, cid, tr2, e. done.
Qed.

(** X1. Every upload request ends in exactly one of six answers: 422 from
    the validator, 401 for an unregistered device, 401 for a bad signature,
    500 with "IPFS upload failed: ...", 500 with "Blockchain write failed:
    ...", or 200 with the content identifier and the transaction hash. No
    exception escapes the handler (there is never a bare internal server
    error), and the state is unchanged in every case. *)
Theorem upload_answers_classified body st :
  ∃ tr rsp, handle (POST_upload body) st = (st, tr, rsp)
    ∧ (rsp = Error 422 "device_id must start with IOT-"
       ∨ rsp = Error 401 "Device not registered"
       ∨ rsp = Error 401 "Invalid signature or fake device"
       ∨ (∃ e, rsp = Error 500 ("IPFS upload failed: " +:+ str_exn e))
       ∨ (∃ e, rsp = Error 500 ("Blockchain write failed: " +:+ str_exn e))
       ∨ (∃ cid txh_hex,
            rsp = Success [("message", "Upload successful");
                           ("device_id", device_id body);
                           ("ipfs_cid", cid);
                           ("tx_hash", txh_hex)])).
Proof.
  cbn [handle].
  destruct (String.prefix "IOT-" (device_id body)) eqn:Hp.
  2:{ rewrite IoTData_validate_rejects by done. eexists _, _. split; [done|].
      by left. }
  rewrite IoTData_validate_ok by done. unfold serve.
  destruct (device_registry st !! device_id body) as [pk|] eqn:Hreg.
  2:{ rewrite upload_unregistered by done. eexists _, _. split; [done|].
      right. by left. }
  destruct (verify_signature_returns (device_id body) (data body)
              (signature body) st) as (b & Hrun & _).
  destruct b.
  2:{ rewrite upload_bad_signature; [|by eexists|by rewrite Hrun].
      eexists _, _. split; [done|]. right. right. by left. }
  rewrite upload_verified; [|by eexists|by rewrite Hrun].
  destruct (store_and_anchor_cases body st) as (tr & r & -> & Hcase).
  eexists _, _. split; [done|]. do 3 right.
  destruct Hcase as [(e & _ & ->)|[(j & c & t2 & e & _ & _ & _ & _ & ->)
                                  |(j & c & t2 & h & _ & _ & _ & _ & ->)]]; cbn.
  - left. by exists e.
  - right. left. by exists e.
  - right. right. by exists c, h.
Qed.

(** X2. When the content store cannot take the payload (the JSON encoder or
    [add_bytes] raises [e]), a verified upload is answered 500 "IPFS upload
    failed: " followed by the text of [e], and the pipeline stops there: no
    external call at all was made when the encoder failed, and exactly one,
    the failed [add_bytes] of the encoded payload, otherwise; the ledger
    node is never contacted. *)
Theorem storage_failure_stops_pipeline iot_data e st :
  is_Some (device_registry st !! device_id iot_data) →
  (verify_signature (device_id iot_data) (data iot_data)
     (signature iot_data) st).2 = Ok true →
  (json_dumps (data iot_data) = Raise e
   ∨ ∃ json_str, json_dumps (data iot_data) = Ok json_str
                 ∧ add_bytes (encode json_str) = Raise e) →
  serve (upload_iot_data iot_data) st
  = (st,
     match json_dumps (data iot_data) with
     | Ok json_str => [IpfsAddBytes (encode json_str)]
     | Raise _ => []
     end,
     Error 500 ("IPFS upload failed: " +:+ str_exn e)).
Proof.
  intros Hreg Hsig Hfail. unfold serve. rewrite upload_verified by done.
  destruct (store_and_anchor_cases iot_data st) as (tr & r & -> & Hcase).
  destruct Hcase as [(e' & Hwhy & ->)|[(j & c & t2 & e' & Hj & Ha & _)
                                      |(j & c & t2 & h & Hj & Ha & _)]].
  - destruct Hwhy as [[Hj ->]|(j & Hj & Ha & ->)];
      destruct Hfail as [Hj'|(j' & Hj' & Ha')]; try congruence.
    + rewrite Hj. cbn. congruence.
    + rewrite Hj. cbn. congruence.
  - destruct Hfail as [Hj'|(j' & Hj' & Ha')]; congruence.
  - destruct Hfail as [Hj'|(j' & Hj' & Ha')]; congruence.
Qed.

(** X3. When the anchoring attempt fails after the payload was stored, the
    upload is answered 500 "Blockchain write failed: Blockchain transaction
    failed" (the cause is not in the answer), the content stays stored and
    nothing is done about it: the trace is the [add_bytes] call followed by
    the node calls of the failed attempt, and nothing else. *)
Theorem ledger_failure_leaves_content_stored iot_data json_str cid addr tr2 st :
  is_Some (device_registry st !! device_id iot_data) →
  (verify_signature (device_id iot_data) (data iot_data)
     (signature iot_data) st).2 = Ok true →
  json_dumps (data iot_data) = Ok json_str →
  add_bytes (encode json_str) = Ok cid →
  (get_device_address (device_id iot_data) st).2 = Ok addr →
  execute_contract_function "storeDataHash"
    (anchor_args cid "sensor" addr (data iot_data)) st = (st, tr2, Ok None) →
  serve (upload_iot_data iot_data) st
  = (st, IpfsAddBytes (encode json_str) :: tr2,
     Error 500 "Blockchain write failed: Blockchain transaction failed").
Proof.
  intros Hreg Hsig Hjson Hadd Haddr Hrun.
  unfold serve. rewrite upload_verified by done.
  pose proof (store_hash_on_chain_failure _ _ _ _ _ _ _ Haddr Hrun) as Hfail.
  destruct (store_and_anchor_cases iot_data st) as (tr & r & -> & Hcase).
  destruct Hcase as [(e' & Hwhy & ->)|[(j & c & t2 & e' & Hj & Ha & Hs & -> & ->)
                                      |(j & c & t2 & h & Hj & Ha & Hs & _)]].
  - destruct Hwhy as [[Hj _]|(j & Hj & Ha & _)]; congruence.
  - assert (j = json_str) as -> by congruence.
    assert (c = cid) as -> by congruence.
    rewrite Hfail in Hs. by simplify_eq.
  - assert (j = json_str) as -> by congruence.
    assert (c = cid) as -> by congruence.
    rewrite Hfail in Hs. by simplify_eq.
Qed.

(** X5. The device address committed by [store_hash_on_chain] is the
    checksum form of the device id when the id is itself an address, and the
    checksum form of the service's own account in every other case: records
    of devices whose id is not an address are all attributed to the service
    account. *)
Theorem anchored_device_address device_id cid data data_type st st' tr txh_hex :
  store_hash_on_chain device_id cid data data_type st = (st', tr, Ok txh_hex) →
  ∃ addr raw txh receipt,
    anchor_attempt "storeDataHash" (anchor_args cid data_type addr data)
      raw txh receipt
    ∧ match to_checksum_address device_id with
      | Ok a => addr = a
      | Raise _ => to_checksum_address (account_address config) = Ok addr
      end.
Proof.
  intros Hs.
  destruct (store_hash_on_chain_inv _ _ _ _ _ _ _ _ Hs)
    as (-> & addr & raw & txh & rc & Haddr & Hatt & _).
  exists addr, raw, txh, rc. split; [done|].
  rewrite get_device_address_eq in Haddr. cbn [snd] in Haddr.
  by destruct (to_checksum_address device_id); simplify_eq.
Qed.

(** X6. Registrations compose as writes to a dictionary: registering an id
    again replaces its key (the state is the one the last registration alone
    would give), and registrations of different ids can be made in either
    order. *)
Theorem register_device_composes id1 pk1 pk1' id2 pk2 st :
  id1 ≠ "" → pk1 ≠ "" → pk1' ≠ "" → id2 ≠ "" → pk2 ≠ "" →
  (handle (POST_register {| reg_device_id := id1; reg_public_key := pk1' |})
     (handle (POST_register {| reg_device_id := id1; reg_public_key := pk1 |})
        st).1.1).1.1
  = (handle (POST_register {| reg_device_id := id1; reg_public_key := pk1' |})
       st).1.1
  ∧ (id1 ≠ id2 →
     (handle (POST_register {| reg_device_id := id2; reg_public_key := pk2 |})
        (handle (POST_register {| reg_device_id := id1; reg_public_key := pk1 |})
           st).1.1).1.1
     = (handle (POST_register {| reg_device_id := id1; reg_public_key := pk1 |})
          (handle (POST_register {| reg_device_id := id2; reg_public_key := pk2 |})
             st).1.1).1.1).
Proof.
  intros Hid1 Hpk1 Hpk1' Hid2 Hpk2. cbn [handle]. unfold serve.
  rewrite !register_device_ok by done. cbn [fst]. unfold registered.
  cbn [reg_device_id reg_public_key device_registry DEVICE_PUBLIC_KEYS].
  split.
  - by rewrite !insert_insert_eq.
  - intros Hne. f_equal; by apply insert_insert_ne.
Qed.

(** X7. What is anchored is what was signed: after a successful upload, the
    digest in the submitted [storeDataHash] transaction is the very digest
    against which the signature was checked, under the key registered for
    the device. No payload is anchored without a verified signature. *)
Theorem anchored_digest_is_verified_digest iot_data st st' tr body :
  upload_iot_data iot_data st = (st', tr, Ok body) →
  ∃ pubkey_hex key_bytes vk sig_bytes cid addr raw txh receipt,
    DEVICE_PUBLIC_KEYS st !! device_id iot_data = Some pubkey_hex
    ∧ bytes_fromhex pubkey_hex = Ok key_bytes
    ∧ from_string key_bytes = Ok vk
    ∧ b64decode (signature iot_data) = Ok sig_bytes
    ∧ verify vk sig_bytes (sha256 (canonical_encoding (data iot_data))) = Ok true
    ∧ anchor_attempt "storeDataHash"
        [AbiString cid; AbiString "sensor"; AbiAddress addr;
         AbiBytes (sha256 (canonical_encoding (data iot_data)))]
        raw txh receipt.
Proof.
  intros Hup.
  destruct (device_registry st !! device_id iot_data) as [pk|] eqn:Hreg.
  2:{ rewrite upload_unregistered in Hup by done. simplify_eq. }
  destruct (verify_signature_returns (device_id iot_data) (data iot_data)
              (signature iot_data) st) as (b & Hrun & Hb).
  destruct b.
  2:{ rewrite upload_bad_signature in Hup; [simplify_eq|by eexists|by rewrite Hrun]. }
  destruct (proj1 Hb eq_refl) as (pkh & kb & vk & sb & ? & _ & ? & ? & ? & ?).
  rewrite upload_verified in Hup; [|by eexists|by rewrite Hrun].
  destruct (store_and_anchor_cases iot_data st) as (tr' & r & Hrun' & Hcase).
  rewrite Hrun' in Hup. simplify_eq.
  destruct Hcase as [(e' & _ & ?)|[(j & c & t2 & e' & _ & _ & _ & _ & ?)
                                  |(j & c & t2 & h & _ & _ & Hs & _)]];
    [done|done|].
  destruct (store_hash_on_chain_inv _ _ _ _ _ _ _ _ Hs)
    as (_ & addr & raw & txh & rc & _ & Hatt & _).
  exists pkh, kb, vk, sb, c, addr, raw, txh, rc. done.
Qed.
End pipeline_properties.

(* ================================================================== *)
(** * 12. The device simulator against the backend *)
(* ================================================================== *)

Section device_properties.
Context `{FloatRepr} `{!Externals} `{!BlockchainService} `{!DeviceExternals}.

Lemma canonical_encoding_Permutation (d1 d2 : pydict) :
  NoDup d1.*1 → d1 ≡ₚ d2 → canonical_encoding d1 = canonical_encoding d2.
Proof.
  intros Hnd Hperm. unfold canonical_encoding, canonical_str.
  by rewrite (sorted_insertion_order d1 d2).
Qed.

(** A verified upload whose storage and anchoring calls all go through is
    answered 200. *)
Lemma upload_completes iot_data json_str cid addr raw txh receipt st :
  is_Some (device_registry st !! device_id iot_data) →
  (verify_signature (device_id iot_data) (data iot_data)
     (signature iot_data) st).2 = Ok true →
  json_dumps (data iot_data) = Ok json_str →
  add_bytes (encode json_str) = Ok cid →
  (get_device_address (device_id iot_data) st).2 = Ok addr →
  anchor_attempt "storeDataHash" (anchor_args cid "sensor" addr (data iot_data))
    raw txh receipt →
  serve (upload_iot_data iot_data) st
  = (st, IpfsAddBytes (encode json_str) :: anchor_trace raw txh,
     Success [("message", "Upload successful");
              ("device_id", device_id iot_data);
              ("ipfs_cid", cid);
              ("tx_hash", hex txh)]).
Proof.
  intros Hreg Hsig Hjson Hadd Haddr Hrun.
  unfold serve. rewrite upload_verified by done.
  unfold store_and_anchor, upload_to_ipfs.
  unfold mbind at 1. unfold io_bind at 1.
  unfold try_except at 1. unfold mbind at 1. unfold io_bind at 1.
  unfold lift at 1. rewrite Hjson.
  unfold mbind at 1. unfold io_bind at 1. unfold call at 1. rewrite Hadd.
  cbn [mret io_ret].
  unfold mbind at 1. unfold io_bind at 1. unfold try_except at 1.
  rewrite (store_hash_on_chain_receipt _ _ _ _ _ _ _ _ _ Haddr Hrun).
  reflexivity.
Qed.

Lemma sign_data_eq sk data :
  device_simulator.sign_data sk data
  = ([], match sign sk (sha256 (canonical_encoding data)) with
         | Ok signature => Ok (b64encode signature)
         | Raise e => Raise e
         end).
Proof.
  unfold device_simulator.sign_data, mbind, dev_bind, mret, dev_ret.
  by destruct (sign sk _).
Qed.

Lemma signed_payload_verifies device_id sk data data' sig kb vk st :
  DEVICE_PUBLIC_KEYS st !! device_id = Some (verifying_key_hex sk) →
  (64 ≤ String.length (verifying_key_hex sk))%nat →
  bytes_fromhex (verifying_key_hex sk) = Ok kb →
  from_string kb = Ok vk →
  b64decode (b64encode sig) = Ok sig →
  verify vk sig (sha256 (canonical_encoding data)) = Ok true →
  NoDup data.*1 → data' ≡ₚ data →
  (verify_signature device_id data' (b64encode sig) st).2 = Ok true.
Proof.
  intros Hkey Hlen Hkb Hvk Hb64 Hver Hnd Hperm.
  destruct (verify_signature_returns device_id data' (b64encode sig) st)
    as (b & -> & Hb). cbn [snd]. f_equal. apply Hb.
  exists (verifying_key_hex sk), kb, vk, sig.
  rewrite (canonical_encoding_Permutation data' data); [done| |done].
  by rewrite Hperm.
Qed.

(** X8. The device and the backend agree on what is signed: a signature
    made by [sign_data] over a payload is accepted by [verify_signature]
    under the device's registered key, also when the backend receives the
    items of the payload in another order, provided the library accepts
    that signature for that digest and base64 decoding undoes the
    encoding. *)
Theorem sign_data_verifies device_id sk data data' sig kb vk st :
  DEVICE_PUBLIC_KEYS st !! device_id = Some (verifying_key_hex sk) →
  (64 ≤ String.length (verifying_key_hex sk))%nat →
  bytes_fromhex (verifying_key_hex sk) = Ok kb →
  from_string kb = Ok vk →
  sign sk (sha256 (canonical_encoding data)) = Ok sig →
  b64decode (b64encode sig) = Ok sig →
  verify vk sig (sha256 (canonical_encoding data)) = Ok true →
  NoDup data.*1 → data' ≡ₚ data →
  ∃ signature,
    device_simulator.sign_data sk data = ([], Ok signature)
    ∧ (verify_signature device_id data' signature st).2 = Ok true.
Proof.
  intros Hkey Hlen Hkb Hvk Hsign Hb64 Hver Hnd Hperm.
  exists (b64encode sig). split.
  - by rewrite sign_data_eq, Hsign.
  - by eapply signed_payload_verifies.
Qed.

(** X9. End to end: a device whose id starts with "IOT-" registers the hex
    form of its key and then uploads a payload signed by [sign_data]; if
    the libraries accept the key and the signature and the content store
    and the ledger node answer, the upload is answered 200 with the content
    identifier and the transaction hash, whatever the state before the
    registration. *)
Theorem registered_device_upload_succeeds id sk data data' sig kb vk
    json_str cid addr raw txh receipt st :
  String.prefix "IOT-" id = true →
  (64 ≤ String.length (verifying_key_hex sk))%nat →
  bytes_fromhex (verifying_key_hex sk) = Ok kb →
  from_string kb = Ok vk →
  sign sk (sha256 (canonical_encoding data)) = Ok sig →
  b64decode (b64encode sig) = Ok sig →
  verify vk sig (sha256 (canonical_encoding data)) = Ok true →
  NoDup data.*1 → data' ≡ₚ data →
  json_dumps data' = Ok json_str →
  add_bytes (encode json_str) = Ok cid →
  (get_device_address id st).2 = Ok addr →
  anchor_attempt "storeDataHash" (anchor_args cid "sensor" addr data')
    raw txh receipt →
  ∃ st1 signature,
    handle (POST_register {| reg_device_id := id;
                             reg_public_key := verifying_key_hex sk |}) st
    = (st1, [], Success [("message", "Device registered successfully")])
    ∧ device_simulator.sign_data sk data = ([], Ok signature)
    ∧ handle (POST_upload {| device_id := id; data := data';
                             signature := signature |}) st1
      = (st1, IpfsAddBytes (encode json_str) :: anchor_trace raw txh,
         Success [("message", "Upload successful");
                  ("device_id", id);
                  ("ipfs_cid", cid);
                  ("tx_hash", hex txh)]).
Proof.
  intros Hp Hlen Hkb Hvk Hsign Hb64 Hver Hnd Hperm Hjson Hadd Haddr Hrun.
  assert (Hid : id ≠ "") by (by intros ->).
  assert (Hpk : verifying_key_hex sk ≠ "").
  { intros Heq. rewrite Heq in Hlen. cbn in Hlen. lia. }
  set (req := {| reg_device_id := id;
                 reg_public_key := verifying_key_hex sk |}).
  exists (registered req st), (b64encode sig). split; [|split].
  - cbn [handle]. unfold serve. by rewrite register_device_ok.
  - by rewrite sign_data_eq, Hsign.
  - cbn [handle]. rewrite IoTData_validate_ok by done.
    refine (upload_completes
              {| device_id := id; data := data';
                 signature := b64encode sig |}
              json_str cid addr raw txh receipt (registered req st)
              _ _ Hjson Hadd _ Hrun).
    + cbn. rewrite lookup_insert_eq. by eexists.
    + change ((verify_signature id data' (b64encode sig) (registered req st)).2
              = Ok true).
      eapply signed_payload_verifies; try done. cbn. apply lookup_insert_eq.
    + change ((get_device_address id (registered req st)).2 = Ok addr).
      rewrite get_device_address_eq in Haddr |- *. done.
Qed.

Lemma prefix_app s t : String.prefix s (s +:+ t) = true.
Proof.
  induction s as [|a s IH]; [by destruct t|].
  rewrite app_cons. cbn [String.prefix]. by destruct (ascii_dec a a).
Qed.

(** X10. The identifier [create_sample_device] generates from a key always
    starts with "IOT-": it registers (with any non-empty key), and after
    that no upload under it is turned away by the validator or by the
    registration check. *)
Theorem sample_device_id_accepted pubkey_hex pk st :
  pk ≠ "" →
  ∃ st',
    handle (POST_register
              {| reg_device_id := device_simulator.sample_device_id pubkey_hex;
                 reg_public_key := pk |}) st
    = (st', [], Success [("message", "Device registered successfully")])
    ∧ ∀ d sig tr rsp,
        handle (POST_upload
                  {| device_id := device_simulator.sample_device_id pubkey_hex;
                     data := d; signature := sig |}) st' = (st', tr, rsp) →
        rsp ≠ Error 422 "device_id must start with IOT-"
        ∧ rsp ≠ Error 401 "Device not registered".
Proof.
  intros Hpk.
  set (id := device_simulator.sample_device_id pubkey_hex).
  assert (Hp : String.prefix "IOT-" id = true) by apply prefix_app.
  assert (Hid : id ≠ "") by (by intros Heq; rewrite Heq in Hp).
  set (req := {| reg_device_id := id; reg_public_key := pk |}).
  exists (registered req st). split.
  - cbn [handle]. unfold serve. by rewrite register_device_ok.
  - intros d sig tr rsp. cbn [handle]. rewrite IoTData_validate_ok by done.
    unfold serve.
    set (iot := {| device_id := id; data := d; signature := sig |}).
    assert (Hreg : is_Some (device_registry (registered req st) !! device_id iot)).
    { cbn. rewrite lookup_insert_eq. by eexists. }
    destruct (verify_signature_returns (device_id iot) (data iot)
                (signature iot) (registered req st)) as (b & Hrun & _).
    destruct b.
    + rewrite upload_verified; [|done|by rewrite Hrun].
      destruct (store_and_anchor_cases iot (registered req st))
        as (tr' & r & -> & Hcase).
      intros [= <- <-].
      destruct Hcase as [(e & _ & ->)|[(j & c & t2 & e & _ & _ & _ & _ & ->)
                                      |(j & c & t2 & h & _ & _ & _ & _ & ->)]];
        done.
    + rewrite upload_bad_signature; [|done|by rewrite Hrun].
      by intros [= <- <-].
Qed.




End device_properties.

(* ================================================================== *)
(** * 13. The text and the bytes of a payload *)
(* ================================================================== *)

(** X12. The text [str] gives for a value determines the value, at every
    depth: two values (numbers, strings, lists, dictionaries with their
    items in order) have the same text only if they are equal. *)
Theorem repr_injective `{FloatReprLaws} (v1 v2 : pyval) :
  repr v1 = repr v2 ↔ v1 = v2.
Proof.
  split; [|by intros ->]. intros Heq.
  destruct (repr_unamb v1 v2 "" "") as [Hv _]; [done|done| |done].
  by rewrite !app_empty_r.
Qed.

(** X13. [str.encode()] loses nothing: two texts have the same bytes only if
    they are the same text, and a character above U+007F takes two bytes, so
    the encoding is never shorter than the text and at most twice as long. *)
Theorem encode_injective_and_bounded (s1 s2 : string) :
  (encode s1 = encode s2 ↔ s1 = s2)
  ∧ (String.length s1 ≤ length (encode s1) ≤ 2 * String.length s1)%nat.
Proof.
  split.
  - split; [apply encode_inj|by intros ->].
  - induction s1 as [|ch s IH]; [cbn; lia|].
    cbn [encode String.length]. rewrite List.length_app.
    assert (1 ≤ length (utf8_char ch) ≤ 2)%nat.
    { unfold utf8_char. destruct (_ <? _)%N; cbn; lia. }
    lia.
Qed.

(* ================================================================== *)
(** * 14. Start-up of the blockchain service *)
(* ================================================================== *)

Section startup_properties.
Context `{FloatRepr} `{!StartupExternals}.

Lemma new_BlockchainConfig_inv url ca pk aa path cfg :
  new_BlockchainConfig url ca pk aa path = Ok cfg →
  has_url_scheme url = true ∧ is_address ca = true ∧ is_address aa = true
  ∧ path_exists path = true
  ∧ service_config cfg
    = {| provider_url := url; contract_address := ca;
         private_key := pk; account_address := aa |}
  ∧ contract_abi_path cfg = path
  ∧ load_abi path = Ok (contract_abi cfg).
Proof.
  unfold new_BlockchainConfig, validate_provider_url,
    validate_ethereum_address, validate_abi_path, mbind, result_bind, mret,
    result_ret.
  destruct (has_url_scheme url); [|done].
  destruct (is_address ca); [|done].
  destruct (is_address aa); [|done].
  destruct (path_exists path); [|done].
  destruct (load_abi path) as [abi|e]; [|done].
  intros [= <-]. done.
Qed.

Lemma BlockchainService_init_inv config svc :
  BlockchainService_init config = Ok svc →
  ∃ cfg,
    match config with
    | Some c => cfg = c
    | None =>
        new_BlockchainConfig
          (default "" (getenv "BLOCKCHAIN_RPC_URL"))
          (default "" (getenv "CONTRACT_ADDRESS"))
          (default "" (getenv "PRIVATE_KEY"))
          (default "" (getenv "ACCOUNT_ADDRESS"))
          (default "contracts/build/artifacts/DataStorage.json"
             (getenv "CONTRACT_ABI_PATH")) = Ok cfg
    end
    ∧ svc_config svc = cfg
    ∧ svc_w3 svc
      = (let url := provider_url (service_config cfg) in
         if String.prefix "ws://" url || String.prefix "wss://" url
         then WebsocketProvider url else HTTPProvider url)
    ∧ is_connected (svc_w3 svc) = true
    ∧ eth_contract (contract_address (service_config cfg)) (contract_abi cfg)
      = Ok tt.
Proof.
  unfold BlockchainService_init. unfold mbind at 1. unfold result_bind at 1.
  intros Hinit.
  assert (∃ cfg, match config with
                 | Some c => Ok c
                 | None => new_BlockchainConfig
                     (default "" (getenv "BLOCKCHAIN_RPC_URL"))
                     (default "" (getenv "CONTRACT_ADDRESS"))
                     (default "" (getenv "PRIVATE_KEY"))
                     (default "" (getenv "ACCOUNT_ADDRESS"))
                     (default "contracts/build/artifacts/DataStorage.json"
                        (getenv "CONTRACT_ABI_PATH"))
                 end = Ok cfg) as [cfg Hcfg].
  { destruct config; [by eexists|].
    destruct (new_BlockchainConfig _ _ _ _ _); [by eexists|done]. }
  rewrite Hcfg in Hinit. cbv zeta in Hinit.
  destruct (is_connected _) eqn:Hconn; [|done]. cbn [negb] in Hinit.
  unfold mbind, result_bind, mret, result_ret in Hinit.
  destruct (eth_contract _ _) as [[]|e] eqn:Hc; [|done].
  injection Hinit as <-. exists cfg. cbn [svc_config svc_w3].
  split; [|done].
  destruct config; [by injection Hcfg as ->|done].
Qed.

(** X14. A service started from the environment ([config=None]) exists only
    if the environment held a URL with one of the four schemes, two strings
    web3 accepts as addresses and the path of an existing ABI file, and the
    node answered; its provider is a websocket one exactly for a [ws://] or
    [wss://] URL, so an HTTP provider always carries an [http://] or
    [https://] URL. *)
Theorem service_start_checks_environment (svc : Service) :
  BlockchainService_init None = Ok svc →
  let url := default "" (getenv "BLOCKCHAIN_RPC_URL") in
  let path := default "contracts/build/artifacts/DataStorage.json"
                (getenv "CONTRACT_ABI_PATH") in
  service_config (svc_config svc)
  = {| provider_url := url;
       contract_address := default "" (getenv "CONTRACT_ADDRESS");
       private_key := default "" (getenv "PRIVATE_KEY");
       account_address := default "" (getenv "ACCOUNT_ADDRESS") |}
  ∧ is_address (default "" (getenv "CONTRACT_ADDRESS")) = true
  ∧ is_address (default "" (getenv "ACCOUNT_ADDRESS")) = true
  ∧ path_exists path = true
  ∧ load_abi path = Ok (contract_abi (svc_config svc))
  ∧ is_connected (svc_w3 svc) = true
  ∧ ((String.prefix "ws://" url || String.prefix "wss://" url = true
      ∧ svc_w3 svc = WebsocketProvider url)
     ∨ (String.prefix "http://" url || String.prefix "https://" url = true
        ∧ svc_w3 svc = HTTPProvider url)).
Proof.
  intros Hinit url path.
  apply BlockchainService_init_inv in Hinit
    as (cfg & Hcfg & -> & Hw3 & Hconn & _).
  apply new_BlockchainConfig_inv in Hcfg
    as (Hurl & Hca & Haa & Hpath & Hsc & Hp & Habi).
  rewrite Hsc in Hw3. cbn [provider_url] in Hw3.
  repeat (split; [done|]). fold url in Hw3, Hurl.
  unfold has_url_scheme in Hurl.
  destruct (String.prefix "ws://" url || String.prefix "wss://" url) eqn:Hws.
  - by left.
  - right. split; [|done].
    apply orb_false_elim in Hws as [Hws1 Hws2].
    rewrite Hws1, Hws2, !orb_false_r in Hurl. done.
Qed.

(** X15. Without a usable [BLOCKCHAIN_RPC_URL] the service does not start:
    when the variable is unset (the default is the empty string) or holds a
    text that starts with none of [http://], [https://], [ws://], [wss://],
    construction raises. *)
Theorem service_start_needs_rpc_url :
  (getenv "BLOCKCHAIN_RPC_URL" = None
   ∨ ∃ url, getenv "BLOCKCHAIN_RPC_URL" = Some url
            ∧ has_url_scheme url = false) →
  ∃ e, BlockchainService_init None = Raise e.
Proof.
  intros Hurl.
  assert (has_url_scheme (default "" (getenv "BLOCKCHAIN_RPC_URL")) = false)
    as Hs.
  { destruct Hurl as [->|(url & -> & ?)]; done. }
  unfold BlockchainService_init, new_BlockchainConfig, validate_provider_url.
  rewrite Hs. by eexists.
Qed.

(** X16. The service reads either file the compiler writes for a contract:
    from the artifact it takes the ["abi"] entry, the ABI-only file it takes
    whole, and both give the same ABI. *)
Theorem load_abi_artifact_or_abi_file (path1 path2 text1 text2 contract_name : string)
    (abi : list pyval)
    (bytecode deployedBytecode methodIdentifiers gasEstimates metadata : pyval)
    (file_name solc_version : string) :
  path1 ≠ "" → path2 ≠ "" →
  read_file path1 = Ok text1 →
  json_loads text1
  = Some (artifact contract_name (PyList abi) bytecode deployedBytecode
            methodIdentifiers gasEstimates metadata file_name solc_version) →
  read_file path2 = Ok text2 →
  json_loads text2 = Some (PyList abi) →
  load_abi path1 = Ok (Some (PyList abi))
  ∧ load_abi path2 = Ok (Some (PyList abi)).
Proof.
  intros Hp1 Hp2 Hr1 Hj1 Hr2 Hj2. unfold load_abi.
  apply String.eqb_neq in Hp1, Hp2. rewrite Hp1, Hp2, Hr1, Hr2.
  unfold mbind, result_bind. rewrite Hj1, Hj2. done.
Qed.
End startup_properties.

(* ================================================================== *)
(** * 15. The deployment script *)
(* ================================================================== *)

Section deploy_properties.
Context `{FloatRepr} `{!deploy.DeployExternals}.

Lemma slice_from_prefix (k : string) : deploy.slice_from 2 ("0x" +:+ k) = k.
Proof. done. Qed.

Lemma setup_account_inv environ w3 acc :
  deploy.setup_account environ w3 = Ok acc →
  ∃ pk balance,
    environ !! "PRIVATE_KEY" = Some pk ∧ pk ≠ ""
    ∧ deploy.from_key w3
        (if String.prefix "0x" pk then deploy.slice_from 2 pk else pk)
      = Ok acc
    ∧ deploy.get_balance w3 (deploy.address acc) = Ok balance
    ∧ balance ≠ 0.
Proof.
  unfold deploy.setup_account.
  destruct (environ !! "PRIVATE_KEY") as [pk|]; [|done].
  destruct pk as [|c pk']; [done|].
  set (pk := String c pk').
  unfold mbind, result_bind, mret, result_ret.
  destruct (deploy.from_key _ _) as [a|] eqn:Hkey; [|done].
  destruct (deploy.get_balance _ _) as [balance|] eqn:Hbal; [|done].
  destruct (deploy.from_wei _ _); [|done].
  destruct (balance =? 0) eqn:Hz; [done|]. intros [= <-].
  exists pk, balance. repeat split; try done. lia.
Qed.

(** X17. A leading [0x] of [PRIVATE_KEY] makes no difference: for a
    non-empty key that does not itself start with [0x], the deployer built
    with the key and the one built with [0x] before it are the same, whatever
    the rest of the environment and the network are. *)
Theorem private_key_prefix_is_optional (environ : gmap string string)
    (network k : string) :
  k ≠ "" → String.prefix "0x" k = false →
  deploy.ContractDeployer (<["PRIVATE_KEY" := "0x" +:+ k]> environ) network
  = deploy.ContractDeployer (<["PRIVATE_KEY" := k]> environ) network.
Proof.
  intros Hk Hpre.
  assert (∀ w3, deploy.setup_account (<["PRIVATE_KEY" := "0x" +:+ k]> environ) w3
                = deploy.setup_account (<["PRIVATE_KEY" := k]> environ) w3)
    as Hacc.
  { intros w3. unfold deploy.setup_account. rewrite !lookup_insert_eq.
    rewrite Hpre. by destruct k. }
  assert (∀ nc, deploy.setup_web3 (<["PRIVATE_KEY" := "0x" +:+ k]> environ) network nc
                = deploy.setup_web3 (<["PRIVATE_KEY" := k]> environ) network nc)
    as Hw3.
  { intros nc. unfold deploy.setup_web3. by rewrite !lookup_insert_ne. }
  unfold deploy.ContractDeployer.
  destruct (deploy.NETWORKS_get network deploy.NETWORKS) as [nc|]; [|done].
  rewrite Hw3. unfold mbind, result_bind.
  destruct (deploy.setup_web3 _ _ _); [|done]. by rewrite Hacc.
Qed.

(** X18. A deployer exists only for one of the three configured networks
    (so not for [mumbai], although the middleware list names it), with a
    node that answers at the URL of the environment or else of the network,
    a non-empty [PRIVATE_KEY] and an account whose balance is not zero; the
    proof-of-authority middleware is in place on every network but
    [localhost]. *)
Theorem deployer_exists_only_when_funded (environ : gmap string string)
    (network : string) (d : deploy.Deployer) :
  deploy.ContractDeployer environ network = Ok d →
  network ∈ ["amoy"; "polygon"; "localhost"]
  ∧ deploy.network d = network
  ∧ deploy.NETWORKS_get network deploy.NETWORKS = Some (deploy.network_config d)
  ∧ deploy.w3_url (deploy.w3 d)
    = default (deploy.rpc_url (deploy.network_config d))
        (environ !! "BLOCKCHAIN_RPC_URL")
  ∧ (deploy.w3_poa (deploy.w3 d) = true ↔ network ≠ "localhost")
  ∧ deploy.is_connected (deploy.w3 d) = true
  ∧ ∃ pk balance,
      environ !! "PRIVATE_KEY" = Some pk ∧ pk ≠ ""
      ∧ deploy.get_balance (deploy.w3 d) (deploy.address (deploy.account d))
        = Ok balance
      ∧ balance ≠ 0.
Proof.
  unfold deploy.ContractDeployer.
  destruct (deploy.NETWORKS_get network deploy.NETWORKS) as [nc|] eqn:Hnet;
    [|done].
  unfold mbind at 1. unfold result_bind at 1.
  destruct (deploy.setup_web3 environ network nc) as [w|] eqn:Hw3; [|done].
  unfold mbind, result_bind, mret, result_ret.
  destruct (deploy.setup_account environ w) as [acc|] eqn:Hacc; [|done].
  intros [= <-]. cbn [deploy.network deploy.network_config deploy.w3 deploy.account].
  unfold deploy.setup_web3 in Hw3. cbv zeta in Hw3.
  destruct (deploy.is_connected _) eqn:Hconn; [|done]. cbn [negb] in Hw3.
  unfold mbind, result_bind, mret, result_ret in Hw3.
  destruct (deploy.eth_chain_id _); [|done]. injection Hw3 as <-.
  cbn [deploy.w3_url deploy.w3_poa].
  assert (network ∈ ["amoy"; "polygon"; "localhost"]) as Hin.
  { unfold deploy.NETWORKS in Hnet. cbn [deploy.NETWORKS_get] in Hnet.
    destruct (String.eqb_spec "amoy" network) as [<-|_]; [set_solver|].
    destruct (String.eqb_spec "polygon" network) as [<-|_]; [set_solver|].
    destruct (String.eqb_spec "localhost" network) as [<-|_]; [set_solver|].
    done. }
  split; [done|]. split; [done|]. split; [done|]. split; [done|].
  split.
  { rewrite bool_decide_eq_true.
    apply elem_of_cons in Hin as [->|Hin]; [split; [done|set_solver]|].
    apply elem_of_cons in Hin as [->|Hin]; [split; [done|set_solver]|].
    apply list_elem_of_singleton in Hin as ->.
    split; [|done]. intros Hm. exfalso.
    repeat (apply elem_of_cons in Hm as [Hm|Hm]; [done|]).
    by apply elem_of_nil in Hm. }
  split; [done|].
  apply setup_account_inv in Hacc as (pk & balance & ? & ? & ? & ? & ?).
  by exists pk, balance.
Qed.

(** X19. [deploy_contract] returns a record only for a deployment that went
    through: the artifact had bytecode (neither empty nor the bare [0x]),
    the transaction was sent and its receipt, awaited for 300 seconds, has a
    status other than 0; the record carries that receipt's contract address
    and a gas limit that is not zero (the caller's, or else the estimate). *)
Theorem deploy_contract_reports_only_success (self : deploy.Deployer)
    (contract_name : string) (gas_limit : option Z)
    (info : deploy.DeploymentInfo) :
  deploy.deploy_contract self contract_name gas_limit = Ok info →
  ∃ artifact signed_txn tx_hash tx_receipt,
    deploy.read_artifact contract_name = Ok artifact
    ∧ deploy.artifact_bytecode artifact ≠ ""
    ∧ deploy.artifact_bytecode artifact ≠ "0x"
    ∧ deploy.send_raw_transaction (deploy.w3 self) signed_txn = Ok tx_hash
    ∧ deploy.wait_for_transaction_receipt (deploy.w3 self) tx_hash 300
      = Ok tx_receipt
    ∧ deploy.status tx_receipt ≠ 0
    ∧ deploy.info_address info = deploy.contractAddress tx_receipt
    ∧ deploy.info_transaction_hash info = deploy.hex tx_hash
    ∧ deploy.info_abi info = deploy.artifact_abi artifact
    ∧ deploy.info_gas_limit info
      = default (deploy.estimate_gas self (deploy.artifact_bytecode artifact))
          gas_limit
    ∧ deploy.info_gas_limit info ≠ 0.
Proof.
  unfold deploy.deploy_contract. unfold mbind at 1. unfold result_bind at 1.
  destruct (deploy.read_artifact contract_name) as [artifact|] eqn:Hart;
    [|done].
  cbv zeta.
  destruct (String.eqb_spec (deploy.artifact_bytecode artifact) "") as [|Hb1];
    [done|].
  destruct (String.eqb_spec (deploy.artifact_bytecode artifact) "0x") as [|Hb2];
    [done|].
  cbn [orb].
  set (gl := match gas_limit with
             | Some g => g
             | None => deploy.estimate_gas self (deploy.artifact_bytecode artifact)
             end).
  unfold mbind, result_bind, mret, result_ret.
  destruct (deploy.eth_contract _ _ _) as [contract|]; [|done].
  destruct (deploy.gas_price _) as [gp|]; [|done].
  destruct (deploy.from_wei gp _); [|done].
  destruct (deploy.from_wei (gl * gp) _); [|done].
  destruct (deploy.constructor _) as [ctor|]; [|done].
  destruct (deploy.get_transaction_count _ _) as [nonce|]; [|done].
  destruct (deploy.build_transaction _ _ _ _ _) as [tx|]; [|done].
  destruct (deploy.sign_transaction _ _ _) as [raw|]; [|done].
  destruct (deploy.send_raw_transaction _ _) as [txh|] eqn:Hsend; [|done].
  destruct (deploy.wait_for_transaction_receipt _ _ _) as [r|] eqn:Hwait;
    [|done].
  destruct (deploy.status r =? 0) eqn:Hst; [done|].
  destruct (deploy.from_wei (deploy.gasUsed r * gp) _) as [cost|]; [|done].
  destruct (gl =? 0) eqn:Hgl; [done|]. intros [= <-].
  exists artifact, raw, txh, r. cbn.
  repeat split; try done; lia.
Qed.
End deploy_properties.

(* ================================================================== *)
(** * 16. The further properties at concrete inputs *)
(* ================================================================== *)

Section unreachable_store_example.
Local Existing Instance integral_floats.
Local Existing Instance demo_service.
Local Existing Instance unreachable_store.

(** X2 at a concrete input: the content store cannot be reached. *)
Lemma storage_failure_stops_pipeline_witness :
  serve (upload_iot_data demo_upload) demo_state
  = (demo_state,
     match json_dumps (data demo_upload) with
     | Ok json_str => [IpfsAddBytes (encode json_str)]
     | Raise _ => []
     end,
     Error 500 ("IPFS upload failed: " +:+ str_exn (Exception "ConnectionError"))).
Proof.
  refine (storage_failure_stops_pipeline demo_upload
            (Exception "ConnectionError") demo_state _ _ _).
  - eexists. vm_compute. reflexivity.
  - vm_compute. reflexivity.
  - right. exists demo_json. split; reflexivity.
Defined.
End unreachable_store_example.

Section silent_node_example.
Local Existing Instance integral_floats.
Local Existing Instance demo_service.
Local Existing Instance silent_node.

(** X3 at a concrete input: the receipt never arrives. *)
Lemma ledger_failure_leaves_content_stored_witness :
  serve (upload_iot_data demo_upload) demo_state
  = (demo_state,
     IpfsAddBytes (encode demo_json) :: anchor_trace demo_raw demo_txh,
     Error 500 "Blockchain write failed: Blockchain transaction failed").
Proof.
  refine (ledger_failure_leaves_content_stored demo_upload demo_json
            "QmExampleCid" "0xACC0" (anchor_trace demo_raw demo_txh)
            demo_state _ _ _ _ _ _).
  - eexists. vm_compute. reflexivity.
  - vm_compute. reflexivity.
  - reflexivity.
  - reflexivity.
  - vm_compute. reflexivity.
  - vm_compute. reflexivity.
Defined.
End silent_node_example.

Section further_accepted_examples.
Local Existing Instance integral_floats.
Local Existing Instance demo_service.
Local Existing Instance accepting_node.
Local Existing Instance demo_device.

(** X5 at a concrete input: the id "IOT-AB12CD34" is not an address, the
    record is attributed to the service account. *)
Lemma anchored_device_address_witness :
  ∃ addr raw txh receipt,
    anchor_attempt "storeDataHash"
      (anchor_args "QmExampleCid" "sensor" addr demo_data) raw txh receipt
    ∧ match to_checksum_address "IOT-AB12CD34" with
      | Ok a => addr = a
      | Raise _ => to_checksum_address (account_address config) = Ok addr
      end.
Proof.
  refine (anchored_device_address "IOT-AB12CD34" "QmExampleCid" demo_data
            "sensor" demo_state demo_state (anchor_trace demo_raw demo_txh)
            "0xtxhash" _).
  vm_compute. reflexivity.
Defined.

(** X6 at a concrete input. *)
Lemma register_device_composes_witness :
  (handle (POST_register {| reg_device_id := "IOT-A"; reg_public_key := "k2" |})
     (handle (POST_register {| reg_device_id := "IOT-A"; reg_public_key := "k1" |})
        initial_state).1.1).1.1
  = (handle (POST_register {| reg_device_id := "IOT-A"; reg_public_key := "k2" |})
       initial_state).1.1
  ∧ ("IOT-A" ≠ "IOT-B" →
     (handle (POST_register {| reg_device_id := "IOT-B"; reg_public_key := "k3" |})
        (handle (POST_register {| reg_device_id := "IOT-A"; reg_public_key := "k1" |})
           initial_state).1.1).1.1
     = (handle (POST_register {| reg_device_id := "IOT-A"; reg_public_key := "k1" |})
          (handle (POST_register {| reg_device_id := "IOT-B"; reg_public_key := "k3" |})
             initial_state).1.1).1.1).
Proof.
  refine (register_device_composes "IOT-A" "k1" "k2" "IOT-B" "k3"
            initial_state _ _ _ _ _); discriminate.
Defined.

(** X7 at a concrete input: the accepted upload of the demo payload. *)
Lemma anchored_digest_is_verified_digest_witness :
  ∃ pubkey_hex key_bytes vk sig_bytes cid addr raw txh receipt,
    DEVICE_PUBLIC_KEYS demo_state !! device_id demo_upload = Some pubkey_hex
    ∧ bytes_fromhex pubkey_hex = Ok key_bytes
    ∧ from_string key_bytes = Ok vk
    ∧ b64decode (signature demo_upload) = Ok sig_bytes
    ∧ verify vk sig_bytes (sha256 (canonical_encoding (data demo_upload)))
      = Ok true
    ∧ anchor_attempt "storeDataHash"
        [AbiString cid; AbiString "sensor"; AbiAddress addr;
         AbiBytes (sha256 (canonical_encoding (data demo_upload)))]
        raw txh receipt.
Proof.
  refine (anchored_digest_is_verified_digest demo_upload demo_state demo_state
            _ _ _).
  vm_compute. reflexivity.
Defined.

(** X8 at a concrete input: the device signs temperature before humidity,
    the backend receives humidity before temperature. *)
Lemma sign_data_verifies_witness :
  ∃ signature,
    device_simulator.sign_data tt payload_th = ([], Ok signature)
    ∧ (verify_signature "IOT-AB12CD34" payload_ht signature demo_state).2
      = Ok true.
Proof.
  refine (sign_data_verifies "IOT-AB12CD34" tt payload_th payload_ht
            (sha256 (canonical_encoding payload_th))
            (take 64 (list_byte_of_string demo_public_key))
            (take 64 (list_byte_of_string demo_public_key))
            demo_state _ _ _ _ _ _ _ _ _).
  - vm_compute. reflexivity.
  - vm_compute. lia.
  - vm_compute. reflexivity.
  - vm_compute. reflexivity.
  - reflexivity.
  - vm_compute. reflexivity.
  - vm_compute. reflexivity.
  - apply (bool_decide_unpack _). vm_compute. exact I.
  - apply Permutation_swap.
Defined.

(** X9 at a concrete input: registration and upload from the empty state. *)
Lemma registered_device_upload_succeeds_witness :
  ∃ st1 signature,
    handle (POST_register {| reg_device_id := "IOT-AB12CD34";
                             reg_public_key := verifying_key_hex tt |})
      initial_state
    = (st1, [], Success [("message", "Device registered successfully")])
    ∧ device_simulator.sign_data tt payload_th = ([], Ok signature)
    ∧ handle (POST_upload {| device_id := "IOT-AB12CD34"; data := payload_ht;
                             signature := signature |}) st1
      = (st1,
         IpfsAddBytes (encode "{'humidity': 60, 'temperature': 22.0}")
           :: anchor_trace demo_raw demo_txh,
         Success [("message", "Upload successful");
                  ("device_id", "IOT-AB12CD34");
                  ("ipfs_cid", "QmExampleCid");
                  ("tx_hash", hex demo_txh)]).
Proof.
  refine (registered_device_upload_succeeds "IOT-AB12CD34" tt payload_th
            payload_ht (sha256 (canonical_encoding payload_th))
            (take 64 (list_byte_of_string demo_public_key))
            (take 64 (list_byte_of_string demo_public_key))
            "{'humidity': 60, 'temperature': 22.0}" "QmExampleCid" "0xACC0"
            demo_raw demo_txh
            {| receipt_status := 1; receipt_blockNumber := 12 |}
            initial_state _ _ _ _ _ _ _ _ _ _ _ _ _).
  - reflexivity.
  - vm_compute. lia.
  - vm_compute. reflexivity.
  - vm_compute. reflexivity.
  - reflexivity.
  - vm_compute. reflexivity.
  - vm_compute. reflexivity.
  - apply (bool_decide_unpack _). vm_compute. exact I.
  - apply Permutation_swap.
  - vm_compute. reflexivity.
  - reflexivity.
  - vm_compute. reflexivity.
  - eexists _, _, _, _. repeat split; reflexivity.
Defined.

(** X10 at a concrete input: the id generated from the demo key. *)
Lemma sample_device_id_accepted_witness :
  ∃ st',
    handle (POST_register
              {| reg_device_id := device_simulator.sample_device_id demo_public_key;
                 reg_public_key := demo_public_key |}) initial_state
    = (st', [], Success [("message", "Device registered successfully")])
    ∧ ∀ d sig tr rsp,
        handle (POST_upload
                  {| device_id := device_simulator.sample_device_id demo_public_key;
                     data := d; signature := sig |}) st' = (st', tr, rsp) →
        rsp ≠ Error 422 "device_id must start with IOT-"
        ∧ rsp ≠ Error 401 "Device not registered".
Proof.
  refine (sample_device_id_accepted demo_public_key demo_public_key
            initial_state _).
  discriminate.
Defined.


(** X12 at a concrete input, for floats with an integral value. *)
Lemma repr_injective_witness :
  repr (PyList [PyInt 1; PyStr "a"]) = repr (PyList [PyInt 1; PyStr "a"])
  ↔ PyList [PyInt 1; PyStr "a"] = PyList [PyInt 1; PyStr "a"].
Proof.
  exact (@repr_injective integral_floats integral_floats_laws
           (PyList [PyInt 1; PyStr "a"]) (PyList [PyInt 1; PyStr "a"])).
Defined.
End further_accepted_examples.

Section configured_host_example.
Local Existing Instance integral_floats.
Local Existing Instance configured_host.

(** X14 at a concrete input: a host with the four variables set. *)
Lemma service_start_checks_environment_witness :
  service_config (svc_config demo_started_service)
  = {| provider_url := default "" (getenv "BLOCKCHAIN_RPC_URL");
       contract_address := default "" (getenv "CONTRACT_ADDRESS");
       private_key := default "" (getenv "PRIVATE_KEY");
       account_address := default "" (getenv "ACCOUNT_ADDRESS") |}
  ∧ is_address (default "" (getenv "CONTRACT_ADDRESS")) = true
  ∧ is_address (default "" (getenv "ACCOUNT_ADDRESS")) = true
  ∧ path_exists (default "contracts/build/artifacts/DataStorage.json"
                   (getenv "CONTRACT_ABI_PATH")) = true
  ∧ load_abi (default "contracts/build/artifacts/DataStorage.json"
                (getenv "CONTRACT_ABI_PATH"))
    = Ok (contract_abi (svc_config demo_started_service))
  ∧ is_connected (svc_w3 demo_started_service) = true
  ∧ ((String.prefix "ws://" (default "" (getenv "BLOCKCHAIN_RPC_URL"))
      || String.prefix "wss://" (default "" (getenv "BLOCKCHAIN_RPC_URL")) = true
      ∧ svc_w3 demo_started_service
        = WebsocketProvider (default "" (getenv "BLOCKCHAIN_RPC_URL")))
     ∨ (String.prefix "http://" (default "" (getenv "BLOCKCHAIN_RPC_URL"))
        || String.prefix "https://" (default "" (getenv "BLOCKCHAIN_RPC_URL")) = true
        ∧ svc_w3 demo_started_service
          = HTTPProvider (default "" (getenv "BLOCKCHAIN_RPC_URL")))).
Proof.
  refine (service_start_checks_environment demo_started_service _).
  vm_compute. reflexivity.
Defined.

(** X16 at a concrete input: the two files written for DataStorage. *)
Lemma load_abi_artifact_or_abi_file_witness :
  load_abi "contracts/build/artifacts/DataStorage.json" = Ok (Some demo_abi)
  ∧ load_abi "contracts/build/artifacts/DataStorage_abi.json" = Ok (Some demo_abi).
Proof.
  refine (load_abi_artifact_or_abi_file
            "contracts/build/artifacts/DataStorage.json"
            "contracts/build/artifacts/DataStorage_abi.json"
            "artifact" "abi" "DataStorage" [PyStr "storeDataHash"]
            (PyStr "0x6080") (PyStr "0x6080") (PyDict []) (PyDict [])
            (PyDict []) "DataStorage.sol" "0.8.20" _ _ _ _ _ _);
    first [discriminate | reflexivity].
Defined.
End configured_host_example.

Section bare_host_example.
Local Existing Instance integral_floats.
Local Existing Instance bare_host.

(** X15 at a concrete input: a host where nothing is set. *)
Lemma service_start_needs_rpc_url_witness :
  ∃ e, BlockchainService_init None = Raise e.
Proof.
  refine (service_start_needs_rpc_url _).
  left. vm_compute. reflexivity.
Defined.
End bare_host_example.

Section funded_node_example.
Local Existing Instance integral_floats.
Local Existing Instance funded_node.

(** X17 at a concrete input: the key "abc" on the local network. *)
Lemma private_key_prefix_is_optional_witness :
  deploy.ContractDeployer (<["PRIVATE_KEY" := "0x" +:+ "abc"]> ∅) "localhost"
  = deploy.ContractDeployer (<["PRIVATE_KEY" := "abc"]> ∅) "localhost".
Proof.
  refine (private_key_prefix_is_optional ∅ "localhost" "abc" _ _);
    first [discriminate | reflexivity].
Defined.

(** X18 at a concrete input: the deployer of the local network. *)
Lemma deployer_exists_only_when_funded_witness :
  "localhost" ∈ ["amoy"; "polygon"; "localhost"]
  ∧ deploy.network demo_deployer = "localhost"
  ∧ deploy.NETWORKS_get "localhost" deploy.NETWORKS
    = Some (deploy.network_config demo_deployer)
  ∧ deploy.w3_url (deploy.w3 demo_deployer)
    = default (deploy.rpc_url (deploy.network_config demo_deployer))
        (({["PRIVATE_KEY" := "0xabc"]} : gmap string string) !! "BLOCKCHAIN_RPC_URL")
  ∧ (deploy.w3_poa (deploy.w3 demo_deployer) = true ↔ "localhost" ≠ "localhost")
  ∧ deploy.is_connected (deploy.w3 demo_deployer) = true
  ∧ ∃ pk balance,
      ({["PRIVATE_KEY" := "0xabc"]} : gmap string string) !! "PRIVATE_KEY" = Some pk
      ∧ pk ≠ ""
      ∧ deploy.get_balance (deploy.w3 demo_deployer)
          (deploy.address (deploy.account demo_deployer)) = Ok balance
      ∧ balance ≠ 0.
Proof.
  refine (deployer_exists_only_when_funded {["PRIVATE_KEY" := "0xabc"]}
            "localhost" demo_deployer _).
  vm_compute. reflexivity.
Defined.

(** X19 at a concrete input: DataStorage deployed with the estimated gas. *)
Lemma deploy_contract_reports_only_success_witness :
  ∃ artifact signed_txn tx_hash tx_receipt,
    deploy.read_artifact "DataStorage" = Ok artifact
    ∧ deploy.artifact_bytecode artifact ≠ ""
    ∧ deploy.artifact_bytecode artifact ≠ "0x"
    ∧ deploy.send_raw_transaction (deploy.w3 demo_deployer) signed_txn = Ok tx_hash
    ∧ deploy.wait_for_transaction_receipt (deploy.w3 demo_deployer) tx_hash 300
      = Ok tx_receipt
    ∧ deploy.status tx_receipt ≠ 0
    ∧ deploy.info_address demo_deployment = deploy.contractAddress tx_receipt
    ∧ deploy.info_transaction_hash demo_deployment = deploy.hex tx_hash
    ∧ deploy.info_abi demo_deployment = deploy.artifact_abi artifact
    ∧ deploy.info_gas_limit demo_deployment
      = default (deploy.estimate_gas demo_deployer
                   (deploy.artifact_bytecode artifact)) None
    ∧ deploy.info_gas_limit demo_deployment ≠ 0.
Proof.
  refine (deploy_contract_reports_only_success demo_deployer "DataStorage"
            None demo_deployment _).
  vm_compute. reflexivity.
Defined.
End funded_node_example.
